(** * graphql-codegen-hasura-schemas: the schema flattening plugin

    A shallow embedding of the two plugin sources of the repository:
    - [ListForm]: [src/index.ts], whose flattened field collections are
      arrays of descriptors carrying their own [name], with a [primaryKeys]
      list and a [get] permission;
    - [MapForm]: the second plugin source (option [tables]), whose flattened
      field collections are objects keyed by field name, with the
      [disableAggregateFields] option.

    JavaScript objects used as maps are [gmap string _]; arrays and the
    ordered field map of a GraphQL type are lists; a value that may be
    [undefined] or [null] is an [option]; a function that may throw returns
    a [result]. *)

From Stdlib Require QArith.
From Stdlib Require Import Ascii String.
From stdpp Require Import gmap strings list fin_maps.

Local Open Scope string_scope.

(** ** JavaScript values and exceptions *)

Module JS.

(** The exceptions the plugin can end with: the [TypeError] of a member
    access on [undefined] or [null], and [new Error(message)]. *)
Inductive exn : Type :=
| TypeError
| Error (message : string).

Inductive result (A : Type) : Type :=
| Ok (value : A)
| Throw (e : exn).
Arguments Ok {A} value.
Arguments Throw {A} e.

Definition bind {A B} (r : result A) (k : A -> result B) : result B :=
  match r with
  | Ok a => k a
  | Throw e => Throw e
  end.

Definition fmap {A B} (f : A -> B) (r : result A) : result B :=
  bind r (fun a => Ok (f a)).

(** A [number]: the finite doubles are rationals (the two zeros are not
    told apart by truthiness or by [<=]), beside NaN and the infinities. *)
Inductive number : Type :=
| NaN
| Infinity
| NegInfinity
| Finite (q : QArith_base.Q).

Definition ofZ (z : Z) : number := Finite (QArith_base.Qmake z 1).

(** [ToBoolean] on a number: [0], [-0] and [NaN] are falsy. *)
Definition numberToBoolean (n : number) : bool :=
  match n with
  | NaN => false
  | Infinity | NegInfinity => true
  | Finite q => negb (QArith_base.Qeq_bool q (QArith_base.Qmake 0 1))
  end.

(** [n <= 0]. *)
Definition leZero (n : number) : bool :=
  match n with
  | NaN | Infinity => false
  | NegInfinity => true
  | Finite q => QArith_base.Qle_bool q (QArith_base.Qmake 0 1)
  end.

(** [n < 0]. *)
Definition ltZero (n : number) : bool :=
  match n with
  | NaN | Infinity => false
  | NegInfinity => true
  | Finite q => negb (QArith_base.Qle_bool (QArith_base.Qmake 0 1) q)
  end.

(** [ToBoolean] on an array: every object is truthy, the empty array too. *)
Definition arrayToBoolean {A} (a : list A) : bool := true.

(** [ToBoolean] on a value that is an object or [null]. *)
Definition nullableToBoolean {A} (o : option A) : bool :=
  match o with
  | Some _ => true
  | None => false
  end.

(** [ToBoolean] on an optional boolean ([undefined] is falsy). *)
Definition optionalToBoolean (o : option bool) : bool :=
  match o with
  | Some b => b
  | None => false
  end.

(** [s.includes(term)]: [term] occurs in [s] as a substring. *)
Fixpoint includes (s term : string) : bool :=
  String.prefix term s ||
  match s with
  | EmptyString => false
  | String _ rest => includes rest term
  end.

(** [a ?? b] on values that are objects or [undefined]. *)
Definition nullish {A} (a b : option A) : option A :=
  match a with
  | Some x => Some x
  | None => b
  end.

End JS.

Import JS.

(** ** The part of the GraphQL object model the plugin reads *)

Module GraphQL.

Inductive TypeKind : Type :=
| Scalar
| Object
| Interface
| Union
| Enum
| InputObject.

#[global] Instance TypeKind_eq_dec : EqDecision TypeKind.
Proof. solve_decision. Defined.

(** The type of a field: a named type, seen through its kind and its
    [name] (all the unwrap routine reads of it), under list and non-null
    wrappers. *)
Inductive GraphQLType : Type :=
| Named (kind : TypeKind) (name : string)
| GraphQLList (ofType : GraphQLType)
| GraphQLNonNull (ofType : GraphQLType).

#[global] Instance GraphQLType_eq_dec : EqDecision GraphQLType.
Proof. solve_decision. Defined.

(** [getFields()]: the field map, in declaration order; each field is
    represented by its [type], the only property read from it. *)
Definition FieldMap : Type := list (string * GraphQLType).

(** A named type as the schema holds it. *)
Record GraphQLNamedType : Type := {
  kind : TypeKind;
  typeName : string;
  getFields : FieldMap;
}.

Record GraphQLSchema : Type := {
  typeMap : gmap string GraphQLNamedType;
  getMutationType : option GraphQLNamedType;
}.

(** [schema.getType(name)]. *)
Definition getType (schema : GraphQLSchema) (name : string)
  : option GraphQLNamedType :=
  typeMap schema !! name.

(** [isObjectType] and [isInputObjectType] on the result of [getType],
    which may be [undefined]. *)
Definition isKind (k : TypeKind) (t : option GraphQLNamedType) : bool :=
  match t with
  | Some ty => bool_decide (kind ty = k)
  | None => false
  end.

Definition isObjectType := isKind Object.
Definition isInputObjectType := isKind InputObject.

(** [fieldMap[key]]. *)
Fixpoint fieldAt (fieldMap : FieldMap) (key : string) : option GraphQLType :=
  match fieldMap with
  | [] => None
  | (k, f) :: rest => if String.eqb k key then Some f else fieldAt rest key
  end.

(** The kind of the named type under all the wrappers. *)
Fixpoint namedKind (t : GraphQLType) : TypeKind :=
  match t with
  | Named k _ => k
  | GraphQLList ofType | GraphQLNonNull ofType => namedKind ofType
  end.

Fixpoint namedName (t : GraphQLType) : string :=
  match t with
  | Named _ n => n
  | GraphQLList ofType | GraphQLNonNull ofType => namedName ofType
  end.

Definition isStructured (k : TypeKind) : bool :=
  match k with
  | Object | InputObject => true
  | _ => false
  end.

(** Some wrapper of the chain is a non-null one. *)
Fixpoint hasNonNull (t : GraphQLType) : bool :=
  match t with
  | Named _ _ => false
  | GraphQLList ofType => hasNonNull ofType
  | GraphQLNonNull _ => true
  end.

(** Some wrapper of the chain is a list. *)
Fixpoint hasList (t : GraphQLType) : bool :=
  match t with
  | Named _ _ => false
  | GraphQLList _ => true
  | GraphQLNonNull ofType => hasList ofType
  end.

End GraphQL.

Import GraphQL.

(** ** Name conversions

    [snake] and [camel] come from the radash package; the plugin is
    modelled over any pair of them. *)

Record CaseConversion : Type := {
  snake : string -> string;
  camel : string -> string;
}.

Section Names.
Context (conv : CaseConversion).

Definition fieldName (modelName : string) : string :=
  snake conv modelName.
Definition fieldInsertInputName (modelName : string) : string :=
  snake conv (fieldName modelName ++ "_insert_input").
Definition fieldSetInputName (modelName : string) : string :=
  snake conv (fieldName modelName ++ "_set_input").
Definition deleteFieldName (modelName : string) : string :=
  "delete_" ++ fieldName modelName.
Definition fieldPkColumnsName (modelName : string) : string :=
  snake conv (fieldName modelName ++ "_pk_columns_input").

Definition fieldNameCamelCase (modelName : string) : string :=
  camel conv modelName.
Definition fieldInsertInputNameCamelCase (modelName : string) : string :=
  camel conv (fieldInsertInputName modelName).
Definition fieldSetInputNameCamelCase (modelName : string) : string :=
  camel conv (fieldSetInputName modelName).
Definition deleteFieldNameCamelCase (modelName : string) : string :=
  camel conv (deleteFieldName modelName).
Definition fieldPkColumnsNameCamelCase (modelName : string) : string :=
  camel conv (fieldPkColumnsName modelName).

(** The model-resolution error of both plugin sources. *)
Definition modelError (modelName : string) : exn :=
  Error ("model " ++ modelName ++
         " doesn't exist, or maybe the role doesn't have any permission").

End Names.

Definition maxDepthError : exn := Error "maxDepth must be larger than 0".

(** ** The plugin of [src/index.ts] *)

Module ListForm.

Module Config.
Record HasuraGraphQLConfig : Type := {
  models : option (list string);
  maxDepth : option number;
  disableFields : option (list string);
  primaryKeyNames : option (list string);
}.
End Config.

Record ModelFieldSchema : Type := {
  name : string;
  type : option string;
  array : bool;
  nullable : bool;
}.

Record Permissions : Type := {
  get : bool;
  insert : bool;
  update : bool;
  delete : bool;
}.

Record ModelSchemas : Type := {
  primaryKeys : list ModelFieldSchema;
  permissions : Permissions;
  model : list ModelFieldSchema;
  insertInput : list ModelFieldSchema;
  setInput : list ModelFieldSchema;
}.

Record BuildModelSchemaOptions : Type := {
  disableFields : option (list string);
  primaryKeyNames : list string;
}.

(** The unwrap routine. The source tests, in this order: non-null wrapper,
    object or input-object type, list wrapper, anything else. *)
Fixpoint getInnerSchemaType (gqlType : GraphQLType) (schema : ModelFieldSchema)
  : option ModelFieldSchema :=
  match gqlType with
  | GraphQLNonNull ofType =>
      getInnerSchemaType ofType
        {| name := name schema; type := type schema;
           array := array schema; nullable := false |}
  | Named Object _ | Named InputObject _ => None
  | GraphQLList ofType =>
      getInnerSchemaType ofType
        {| name := name schema; type := type schema;
           array := true; nullable := nullable schema |}
  | Named _ typeName =>
      Some {| name := name schema; type := Some typeName;
              array := array schema; nullable := nullable schema |}
  end.

(** [options.disableFields?.some((disabledTerm) => key.includes(disabledTerm))] *)
Definition isDisabled (options : BuildModelSchemaOptions) (key : string) : bool :=
  match disableFields options with
  | Some terms => existsb (fun disabledTerm => includes key disabledTerm) terms
  | None => false
  end.

(** The accumulator the unwrap of the field [key] starts from. *)
Definition initialSchema (key : string) : ModelFieldSchema :=
  {| name := key; type := None; array := false; nullable := true |}.

(** The reducer of [buildModelSchema]; [Object.keys(fieldMap)] with
    [fieldMap[key]] is the walk over the entries of the field map. *)
Definition addField (options : BuildModelSchemaOptions)
    (acc : list ModelFieldSchema) (entry : string * GraphQLType)
  : list ModelFieldSchema :=
  let '(key, fieldType) := entry in
  if isDisabled options key then acc
  else
    match getInnerSchemaType fieldType (initialSchema key) with
    | None => acc
    | Some schema => acc ++ [schema]
    end.

Definition buildModelSchema (modelType : GraphQLNamedType)
    (options : BuildModelSchemaOptions) : list ModelFieldSchema :=
  let fieldMap := getFields modelType in
  fold_left (addField options) fieldMap [].

Section WithConversion.
Context (conv : CaseConversion).

(** The reducer of [buildModelSchemas], for one model name: the record, or
    the exception of the final guard. *)
Definition modelSchemasOf (schema : GraphQLSchema) (mutationFields : FieldMap)
    (options : BuildModelSchemaOptions) (modelName : string)
  : result ModelSchemas :=
  let modelType :=
    if isObjectType (getType schema (fieldName conv modelName))
    then getType schema (fieldName conv modelName)
    else getType schema (fieldNameCamelCase conv modelName) in
  let insertInputType :=
    if isInputObjectType (getType schema (fieldInsertInputName conv modelName))
    then getType schema (fieldInsertInputName conv modelName)
    else getType schema (fieldInsertInputNameCamelCase conv modelName) in
  let setInputType :=
    if isInputObjectType (getType schema (fieldSetInputName conv modelName))
    then getType schema (fieldSetInputName conv modelName)
    else getType schema (fieldSetInputNameCamelCase conv modelName) in
  let pkInputType :=
    if isInputObjectType (getType schema (fieldPkColumnsName conv modelName))
    then getType schema (fieldPkColumnsName conv modelName)
    else getType schema (fieldPkColumnsNameCamelCase conv modelName) in
  let canDelete :=
    nullableToBoolean
      (nullish (fieldAt mutationFields (deleteFieldName conv modelName))
               (fieldAt mutationFields (deleteFieldNameCamelCase conv modelName))) in
  let modelSchemas :=
    match modelType with
    | Some t => if isObjectType (Some t) then buildModelSchema t options else []
    | None => []
    end in
  let insertInput :=
    match insertInputType with
    | Some t => if isInputObjectType (Some t) then buildModelSchema t options else []
    | None => []
    end in
  let setInput :=
    match setInputType with
    | Some t => if isInputObjectType (Some t) then buildModelSchema t options else []
    | None => []
    end in
  let primaryKeys :=
    match pkInputType with
    | Some t =>
        if isInputObjectType (Some t) then buildModelSchema t options
        else filter (fun m => name m ∈ primaryKeyNames options) modelSchemas
    | None => filter (fun m => name m ∈ primaryKeyNames options) modelSchemas
    end in
  let result := {|
    primaryKeys := primaryKeys;
    model := modelSchemas;
    insertInput := insertInput;
    setInput := setInput;
    permissions := {|
      get := bool_decide (0 < length modelSchemas);
      insert := bool_decide (0 < length insertInput);
      update := bool_decide (0 < length setInput);
      delete := canDelete;
    |};
  |} in
  if negb (arrayToBoolean (ListForm.model result))
     && negb (arrayToBoolean (ListForm.insertInput result))
     && negb (arrayToBoolean (ListForm.setInput result))
  then Throw (modelError modelName)
  else Ok result.

Definition addModel (schema : GraphQLSchema) (mutationFields : FieldMap)
    (options : BuildModelSchemaOptions)
    (acc : result (gmap string ModelSchemas)) (modelName : string)
  : result (gmap string ModelSchemas) :=
  bind acc (fun acc =>
  bind (modelSchemasOf schema mutationFields options modelName) (fun result =>
  Ok (<[modelName := result]> acc))).

(** [schema.getMutationType().getFields()] comes first and throws on a
    schema without mutation type; [models.reduce] throws on an absent list. *)
Definition buildModelSchemas (models : option (list string))
    (schema : GraphQLSchema) (options : BuildModelSchemaOptions)
  : result (gmap string ModelSchemas) :=
  match getMutationType schema with
  | None => Throw TypeError
  | Some mutationType =>
      let mutationFields := getFields mutationType in
      match models with
      | None => Throw TypeError
      | Some models =>
          fold_left (addModel schema mutationFields options) models (Ok ∅)
      end
  end.

(** The options [plugin] hands over: [primaryKeyNames = ["id"]] by default. *)
Definition pluginOptions (config : Config.HasuraGraphQLConfig)
  : BuildModelSchemaOptions :=
  {| disableFields := Config.disableFields config;
     primaryKeyNames := default ["id"] (Config.primaryKeyNames config) |}.

Context (stringify : gmap string ModelSchemas -> string).

Definition plugin (schema : GraphQLSchema) (config : Config.HasuraGraphQLConfig)
  : result string :=
  fmap stringify
    (buildModelSchemas (Config.models config) schema (pluginOptions config)).

End WithConversion.

(** [if (_config.maxDepth && _config.maxDepth <= 0) throw ...] *)
Definition validate (config : Config.HasuraGraphQLConfig) : result unit :=
  if match Config.maxDepth config with
     | Some n => numberToBoolean n && leZero n
     | None => false
     end
  then Throw maxDepthError
  else Ok tt.

End ListForm.

(** ** The second plugin source (option [tables]) *)

Module MapForm.

Module Config.
Record HasuraGraphQLConfig : Type := {
  commentDescriptions : option bool;
  tables : option (list string);
  maxDepth : option number;
  disableAggregateFields : option bool;
  disableFields : option (list string);
}.
End Config.

Record ModelFieldSchema : Type := {
  type : option string;
  array : bool;
  nullable : bool;
}.

Record Permissions : Type := {
  insert : bool;
  update : bool;
  delete : bool;
}.

(** Each collection is an object keyed by field name, or [null]. *)
Record ModelSchemas : Type := {
  permissions : Permissions;
  model : option (gmap string ModelFieldSchema);
  insertInput : option (gmap string ModelFieldSchema);
  setInput : option (gmap string ModelFieldSchema);
}.

Record BuildModelSchemaOptions : Type := {
  disableAggregateFields : option bool;
  disableFields : option (list string);
}.

Fixpoint getInnerSchemaType (gqlType : GraphQLType) (schema : ModelFieldSchema)
  : option ModelFieldSchema :=
  match gqlType with
  | GraphQLNonNull ofType =>
      getInnerSchemaType ofType
        {| type := type schema; array := array schema; nullable := false |}
  | Named Object _ | Named InputObject _ => None
  | GraphQLList ofType =>
      getInnerSchemaType ofType
        {| type := type schema; array := true; nullable := nullable schema |}
  | Named _ typeName =>
      Some {| type := Some typeName;
              array := array schema; nullable := nullable schema |}
  end.

(** [(options.disableAggregateFields && key.includes("_aggregate")) ||
     options.disableFields?.includes(key)] *)
Definition isDisabled (options : BuildModelSchemaOptions) (key : string) : bool :=
  (optionalToBoolean (disableAggregateFields options) && includes key "_aggregate")
  || match disableFields options with
     | Some names => bool_decide (key ∈ names)
     | None => false
     end.

Definition initialSchema : ModelFieldSchema :=
  {| type := None; array := false; nullable := true |}.

Definition addField (options : BuildModelSchemaOptions)
    (acc : gmap string ModelFieldSchema) (entry : string * GraphQLType)
  : gmap string ModelFieldSchema :=
  let '(key, fieldType) := entry in
  if isDisabled options key then acc
  else
    match getInnerSchemaType fieldType initialSchema with
    | None => acc
    | Some schema => <[key := schema]> acc
    end.

Definition buildModelSchema (modelType : GraphQLNamedType)
    (options : BuildModelSchemaOptions) : gmap string ModelFieldSchema :=
  let fieldMap := getFields modelType in
  fold_left (addField options) fieldMap ∅.

Section WithConversion.
Context (conv : CaseConversion).

Definition modelSchemasOf (schema : GraphQLSchema) (mutationFields : FieldMap)
    (options : BuildModelSchemaOptions) (modelName : string)
  : result ModelSchemas :=
  let modelType :=
    if isObjectType (getType schema (fieldName conv modelName))
    then getType schema (fieldName conv modelName)
    else getType schema (fieldNameCamelCase conv modelName) in
  let insertInputType :=
    if isInputObjectType (getType schema (fieldInsertInputName conv modelName))
    then getType schema (fieldInsertInputName conv modelName)
    else getType schema (fieldInsertInputNameCamelCase conv modelName) in
  let setInputType :=
    if isInputObjectType (getType schema (fieldSetInputName conv modelName))
    then getType schema (fieldSetInputName conv modelName)
    else getType schema (fieldSetInputNameCamelCase conv modelName) in
  let canDelete :=
    nullableToBoolean
      (nullish (fieldAt mutationFields (deleteFieldName conv modelName))
               (fieldAt mutationFields (deleteFieldNameCamelCase conv modelName))) in
  let insertInput :=
    match insertInputType with
    | Some t =>
        if isInputObjectType (Some t) then Some (buildModelSchema t options)
        else None
    | None => None
    end in
  let setInput :=
    match setInputType with
    | Some t =>
        if isInputObjectType (Some t) then Some (buildModelSchema t options)
        else None
    | None => None
    end in
  let result := {|
    model :=
      match modelType with
      | Some t =>
          if isObjectType (Some t) then Some (buildModelSchema t options)
          else None
      | None => None
      end;
    insertInput := insertInput;
    setInput := setInput;
    permissions := {|
      insert := nullableToBoolean insertInput;
      update := nullableToBoolean setInput;
      delete := canDelete;
    |};
  |} in
  if negb (nullableToBoolean (MapForm.model result))
     && negb (nullableToBoolean (MapForm.insertInput result))
     && negb (nullableToBoolean (MapForm.setInput result))
  then Throw (modelError modelName)
  else Ok result.

Definition addModel (schema : GraphQLSchema) (mutationFields : FieldMap)
    (options : BuildModelSchemaOptions)
    (acc : result (gmap string ModelSchemas)) (modelName : string)
  : result (gmap string ModelSchemas) :=
  bind acc (fun acc =>
  bind (modelSchemasOf schema mutationFields options modelName) (fun result =>
  Ok (<[modelName := result]> acc))).

Definition buildModelSchemas (tables : option (list string))
    (schema : GraphQLSchema) (options : BuildModelSchemaOptions)
  : result (gmap string ModelSchemas) :=
  match getMutationType schema with
  | None => Throw TypeError
  | Some mutationType =>
      let mutationFields := getFields mutationType in
      match tables with
      | None => Throw TypeError
      | Some tables =>
          fold_left (addModel schema mutationFields options) tables (Ok ∅)
      end
  end.

Definition pluginOptions (config : Config.HasuraGraphQLConfig)
  : BuildModelSchemaOptions :=
  {| disableAggregateFields := Config.disableAggregateFields config;
     disableFields := Config.disableFields config |}.

Context (stringify : gmap string ModelSchemas -> string).

Definition plugin (schema : GraphQLSchema) (config : Config.HasuraGraphQLConfig)
  : result string :=
  fmap stringify
    (buildModelSchemas (Config.tables config) schema (pluginOptions config)).

End WithConversion.

Definition validate (config : Config.HasuraGraphQLConfig) : result unit :=
  if match Config.maxDepth config with
     | Some n => numberToBoolean n && leZero n
     | None => false
     end
  then Throw maxDepthError
  else Ok tt.

End MapForm.

(** ** Type resolution as the specification words it

    An ordered pair of candidate names per slot, the first that names a
    type of the expected kind wins. *)

Definition lookupOfKind (expected : TypeKind) (schema : GraphQLSchema)
    (candidate : string) : option GraphQLNamedType :=
  match getType schema candidate with
  | Some t => if bool_decide (kind t = expected) then Some t else None
  | None => None
  end.

Definition resolveType (expected : TypeKind) (schema : GraphQLSchema)
    (snakeName camelName : string) : option GraphQLNamedType :=
  match lookupOfKind expected schema snakeName with
  | Some t => Some t
  | None => lookupOfKind expected schema camelName
  end.

Definition hasField (fieldMap : FieldMap) (key : string) : bool :=
  match fieldAt fieldMap key with
  | Some _ => true
  | None => false
  end.

Definition resolveDelete (mutationFields : FieldMap)
    (snakeName camelName : string) : bool :=
  hasField mutationFields snakeName || hasField mutationFields camelName.

(** The four wrapped shapes of a leaf type named [T], as the table of the
    specification lists them, for both plugin sources. *)
Definition unwrapTable (leaf : GraphQLType) (T : string) : Prop :=
  (forall key,
     ListForm.getInnerSchemaType (GraphQLList leaf) (ListForm.initialSchema key)
       = Some {| ListForm.name := key; ListForm.type := Some T;
                 ListForm.array := true; ListForm.nullable := true |}
     /\ ListForm.getInnerSchemaType (GraphQLNonNull (GraphQLList leaf))
          (ListForm.initialSchema key)
       = Some {| ListForm.name := key; ListForm.type := Some T;
                 ListForm.array := true; ListForm.nullable := false |}
     /\ ListForm.getInnerSchemaType (GraphQLNonNull leaf) (ListForm.initialSchema key)
       = Some {| ListForm.name := key; ListForm.type := Some T;
                 ListForm.array := false; ListForm.nullable := false |}
     /\ ListForm.getInnerSchemaType leaf (ListForm.initialSchema key)
       = Some {| ListForm.name := key; ListForm.type := Some T;
                 ListForm.array := false; ListForm.nullable := true |})
  /\ MapForm.getInnerSchemaType (GraphQLList leaf) MapForm.initialSchema
      = Some {| MapForm.type := Some T;
                MapForm.array := true; MapForm.nullable := true |}
  /\ MapForm.getInnerSchemaType (GraphQLNonNull (GraphQLList leaf)) MapForm.initialSchema
      = Some {| MapForm.type := Some T;
                MapForm.array := true; MapForm.nullable := false |}
  /\ MapForm.getInnerSchemaType (GraphQLNonNull leaf) MapForm.initialSchema
      = Some {| MapForm.type := Some T;
                MapForm.array := false; MapForm.nullable := false |}
  /\ MapForm.getInnerSchemaType leaf MapForm.initialSchema
      = Some {| MapForm.type := Some T;
                MapForm.array := false; MapForm.nullable := true |}.

(** The shape [[T!]]: a nullable list of non-null [T]. *)
Definition nullableListOfNonNull (T : string) : GraphQLType :=
  GraphQLList (GraphQLNonNull (Named Scalar T)).

(** One field flattened by the list form with no exclusion at all. *)
Definition unwrapEntry (entry : string * GraphQLType)
  : option ListForm.ModelFieldSchema :=
  ListForm.getInnerSchemaType entry.2 (ListForm.initialSchema entry.1).

(** The reducer of the map form with the aggregate exclusion alone. *)
Definition addFieldAggregateOnly (aggregate : option bool)
    (acc : gmap string MapForm.ModelFieldSchema) (entry : string * GraphQLType)
  : gmap string MapForm.ModelFieldSchema :=
  if optionalToBoolean aggregate && includes entry.1 "_aggregate" then acc
  else
    match MapForm.getInnerSchemaType entry.2 MapForm.initialSchema with
    | None => acc
    | Some schema => <[entry.1 := schema]> acc
    end.

(** One field flattened by the list form: excluded, dropped by the unwrap,
    or kept. *)
Definition flattenEntry (options : ListForm.BuildModelSchemaOptions)
    (entry : string * GraphQLType) : option ListForm.ModelFieldSchema :=
  if ListForm.isDisabled options entry.1 then None else unwrapEntry entry.

(** The flattening of a slot whose handle may be absent. *)
Definition listFlatten (options : ListForm.BuildModelSchemaOptions)
    (handle : option GraphQLNamedType) : list ListForm.ModelFieldSchema :=
  from_option (fun t => ListForm.buildModelSchema t options) [] handle.

Definition mapFlatten (options : MapForm.BuildModelSchemaOptions)
    (handle : option GraphQLNamedType)
  : option (gmap string MapForm.ModelFieldSchema) :=
  (fun t => MapForm.buildModelSchema t options) <$> handle.

(** The shape both [addModel] reducers have, over the function [step] that
    makes the record of one model name. *)
Definition addResult {R : Type} (step : string -> result R)
    (acc : result (gmap string R)) (modelName : string)
  : result (gmap string R) :=
  bind acc (fun acc =>
  bind (step modelName) (fun result => Ok (<[modelName := result]> acc))).

(** The record of one model name over the resolved handles: the list form. *)
Definition listRecord (conv : CaseConversion) (schema : GraphQLSchema)
    (mutationFields : FieldMap) (options : ListForm.BuildModelSchemaOptions)
    (modelName : string) : ListForm.ModelSchemas :=
  let modelSchemas :=
    listFlatten options
      (resolveType Object schema
         (fieldName conv modelName) (fieldNameCamelCase conv modelName)) in
  let insertInput :=
    listFlatten options
      (resolveType InputObject schema
         (fieldInsertInputName conv modelName)
         (fieldInsertInputNameCamelCase conv modelName)) in
  let setInput :=
    listFlatten options
      (resolveType InputObject schema
         (fieldSetInputName conv modelName)
         (fieldSetInputNameCamelCase conv modelName)) in
  {| ListForm.primaryKeys :=
       from_option (fun t => ListForm.buildModelSchema t options)
         (filter (fun m => ListForm.name m ∈ ListForm.primaryKeyNames options)
                 modelSchemas)
         (resolveType InputObject schema
            (fieldPkColumnsName conv modelName)
            (fieldPkColumnsNameCamelCase conv modelName));
     ListForm.permissions :=
       {| ListForm.get := bool_decide (0 < length modelSchemas);
          ListForm.insert := bool_decide (0 < length insertInput);
          ListForm.update := bool_decide (0 < length setInput);
          ListForm.delete :=
            resolveDelete mutationFields
              (deleteFieldName conv modelName)
              (deleteFieldNameCamelCase conv modelName) |};
     ListForm.model := modelSchemas;
     ListForm.insertInput := insertInput;
     ListForm.setInput := setInput |}.

(** The record of one model name over the resolved handles: the map form. *)
Definition mapRecord (conv : CaseConversion) (schema : GraphQLSchema)
    (mutationFields : FieldMap) (options : MapForm.BuildModelSchemaOptions)
    (modelName : string) : MapForm.ModelSchemas :=
  let insertInput :=
    mapFlatten options
      (resolveType InputObject schema
         (fieldInsertInputName conv modelName)
         (fieldInsertInputNameCamelCase conv modelName)) in
  let setInput :=
    mapFlatten options
      (resolveType InputObject schema
         (fieldSetInputName conv modelName)
         (fieldSetInputNameCamelCase conv modelName)) in
  {| MapForm.permissions :=
       {| MapForm.insert := nullableToBoolean insertInput;
          MapForm.update := nullableToBoolean setInput;
          MapForm.delete :=
            resolveDelete mutationFields
              (deleteFieldName conv modelName)
              (deleteFieldNameCamelCase conv modelName) |};
     MapForm.model :=
       mapFlatten options
         (resolveType Object schema
            (fieldName conv modelName) (fieldNameCamelCase conv modelName));
     MapForm.insertInput := insertInput;
     MapForm.setInput := setInput |}.

(** None of the three slots the final guard reads resolves. *)
Definition unresolved (conv : CaseConversion) (schema : GraphQLSchema)
    (modelName : string) : Prop :=
  resolveType Object schema
    (fieldName conv modelName) (fieldNameCamelCase conv modelName) = None
  /\ resolveType InputObject schema
       (fieldInsertInputName conv modelName)
       (fieldInsertInputNameCamelCase conv modelName) = None
  /\ resolveType InputObject schema
       (fieldSetInputName conv modelName)
       (fieldSetInputNameCamelCase conv modelName) = None.

(** The schema has a mutation field of that name. *)
Definition hasMutationField (schema : GraphQLSchema) (name : string) : Prop :=
  exists mutationType field,
    getMutationType schema = Some mutationType
    /\ fieldAt (getFields mutationType) name = Some field.

(** A collection of the map form that is present and holds a field. *)
Definition mapNonEmpty (collection : option (gmap string MapForm.ModelFieldSchema))
  : Prop :=
  exists fields, collection = Some fields /\ fields <> ∅.

(** A record of the list form whose every slot comes from the ordered
    resolution of its handle. *)
Definition listSlotsResolved (conv : CaseConversion) (schema : GraphQLSchema)
    (options : ListForm.BuildModelSchemaOptions) (n : string)
    (r : ListForm.ModelSchemas) : Prop :=
  exists mutationType,
    getMutationType schema = Some mutationType
    /\ ListForm.model r
       = listFlatten options
           (resolveType Object schema
              (fieldName conv n) (fieldNameCamelCase conv n))
    /\ ListForm.insertInput r
       = listFlatten options
           (resolveType InputObject schema
              (fieldInsertInputName conv n)
              (fieldInsertInputNameCamelCase conv n))
    /\ ListForm.setInput r
       = listFlatten options
           (resolveType InputObject schema
              (fieldSetInputName conv n)
              (fieldSetInputNameCamelCase conv n))
    /\ ListForm.primaryKeys r
       = from_option
           (fun t => ListForm.buildModelSchema t options)
           (filter
              (fun m => ListForm.name m ∈ ListForm.primaryKeyNames options)
              (ListForm.model r))
           (resolveType InputObject schema
              (fieldPkColumnsName conv n)
              (fieldPkColumnsNameCamelCase conv n))
    /\ ListForm.delete (ListForm.permissions r)
       = resolveDelete (getFields mutationType)
           (deleteFieldName conv n) (deleteFieldNameCamelCase conv n).

(** The same for the map form, which has no pk-columns slot. *)
Definition mapSlotsResolved (conv : CaseConversion) (schema : GraphQLSchema)
    (options : MapForm.BuildModelSchemaOptions) (n : string)
    (r : MapForm.ModelSchemas) : Prop :=
  exists mutationType,
    getMutationType schema = Some mutationType
    /\ MapForm.model r
       = mapFlatten options
           (resolveType Object schema
              (fieldName conv n) (fieldNameCamelCase conv n))
    /\ MapForm.insertInput r
       = mapFlatten options
           (resolveType InputObject schema
              (fieldInsertInputName conv n)
              (fieldInsertInputNameCamelCase conv n))
    /\ MapForm.setInput r
       = mapFlatten options
           (resolveType InputObject schema
              (fieldSetInputName conv n)
              (fieldSetInputNameCamelCase conv n))
    /\ MapForm.delete (MapForm.permissions r)
       = resolveDelete (getFields mutationType)
           (deleteFieldName conv n) (deleteFieldNameCamelCase conv n).

(** The descriptor of a kept field, read off its type: the innermost name
    and the two cumulative flags. *)
Definition listDescriptor (entry : string * GraphQLType)
  : ListForm.ModelFieldSchema :=
  {| ListForm.name := entry.1;
     ListForm.type := Some (namedName entry.2);
     ListForm.array := hasList entry.2;
     ListForm.nullable := negb (hasNonNull entry.2) |}.

Definition mapDescriptor (fieldType : GraphQLType) : MapForm.ModelFieldSchema :=
  {| MapForm.type := Some (namedName fieldType);
     MapForm.array := hasList fieldType;
     MapForm.nullable := negb (hasNonNull fieldType) |}.

(** A field the flattener keeps: not excluded by the options, and its
    innermost type neither an object nor an input-object type. *)
Definition listKept (options : ListForm.BuildModelSchemaOptions)
    (entry : string * GraphQLType) : bool :=
  negb (ListForm.isDisabled options entry.1)
  && negb (isStructured (namedKind entry.2)).

Definition mapKept (options : MapForm.BuildModelSchemaOptions)
    (entry : string * GraphQLType) : bool :=
  negb (MapForm.isDisabled options entry.1)
  && negb (isStructured (namedKind entry.2)).

(** ** Sample data *)

Module Sample.

Definition upcase (c : ascii) : ascii :=
  let n := nat_of_ascii c in
  if (97 <=? n)%nat && (n <=? 122)%nat then ascii_of_nat (n - 32) else c.

Fixpoint camelFrom (capitalise : bool) (s : string) : string :=
  match s with
  | EmptyString => EmptyString
  | String c rest =>
      if Ascii.eqb c "_" then camelFrom true rest
      else String (if capitalise then upcase c else c) (camelFrom false rest)
  end.

(** The two conversions on names made of lowercase letters and ['_'] only,
    where radash's [snake] returns the name as it is and [camel] drops each
    ['_'] and capitalises the letter after it. *)
Definition lowercaseNames : CaseConversion :=
  {| snake := fun s => s; camel := camelFrom false |}.

Definition String_ : GraphQLType := Named Scalar "String".
Definition ID_ : GraphQLType := Named Scalar "ID".

(** [type user { id: ID!, name: String, roles: [String!]!, posts: [post!]! }] *)
Definition user : GraphQLNamedType :=
  {| kind := Object; typeName := "user";
     getFields :=
       [("id", GraphQLNonNull ID_);
        ("name", String_);
        ("roles", GraphQLNonNull (GraphQLList (GraphQLNonNull String_)));
        ("posts", GraphQLNonNull (GraphQLList (GraphQLNonNull (Named Object "post"))))] |}.

(** [input user_insert_input { name: String }] *)
Definition user_insert_input : GraphQLNamedType :=
  {| kind := InputObject; typeName := "user_insert_input";
     getFields := [("name", String_)] |}.

(** [input tag_insert_input { posts: post_arr_rel_insert_input }] *)
Definition tag_insert_input : GraphQLNamedType :=
  {| kind := InputObject; typeName := "tag_insert_input";
     getFields := [("posts", Named InputObject "post_arr_rel_insert_input")] |}.

(** [type user_role { role: String }], and the same model under its
    camelCase name with another field: [type userRole { legacy: String }] *)
Definition user_role : GraphQLNamedType :=
  {| kind := Object; typeName := "user_role";
     getFields := [("role", String_)] |}.

Definition userRole : GraphQLNamedType :=
  {| kind := Object; typeName := "userRole";
     getFields := [("legacy", String_)] |}.

(** [input userRoleSetInput { role: String }], under its camelCase name only *)
Definition userRoleSetInput : GraphQLNamedType :=
  {| kind := InputObject; typeName := "userRoleSetInput";
     getFields := [("role", String_)] |}.

(** [type mutation_root { insert_user(...): user, deleteUserRole(...): userRole }] *)
Definition mutation_root : GraphQLNamedType :=
  {| kind := Object; typeName := "mutation_root";
     getFields := [("insert_user", Named Object "user");
                   ("deleteUserRole", Named Object "userRole")] |}.

Definition schema : GraphQLSchema :=
  {| typeMap :=
       {[ "user" := user;
          "user_insert_input" := user_insert_input;
          "tag_insert_input" := tag_insert_input;
          "user_role" := user_role;
          "userRole" := userRole;
          "userRoleSetInput" := userRoleSetInput;
          "mutation_root" := mutation_root;
          "String" := {| kind := Scalar; typeName := "String"; getFields := [] |};
          "ID" := {| kind := Scalar; typeName := "ID"; getFields := [] |} ]};
     getMutationType := Some mutation_root |}.

(** The same types in a schema without mutation type. *)
Definition queryOnlySchema : GraphQLSchema :=
  {| typeMap := typeMap schema; getMutationType := None |}.

Definition listOptions : ListForm.BuildModelSchemaOptions :=
  {| ListForm.disableFields := None; ListForm.primaryKeyNames := ["id"] |}.

Definition mapOptions : MapForm.BuildModelSchemaOptions :=
  {| MapForm.disableAggregateFields := None; MapForm.disableFields := None |}.

Definition listConfig : ListForm.Config.HasuraGraphQLConfig :=
  {| ListForm.Config.models := Some ["user"];
     ListForm.Config.maxDepth := None;
     ListForm.Config.disableFields := None;
     ListForm.Config.primaryKeyNames := None |}.

Definition leaf (key T : string) (isArray isNullable : bool)
  : ListForm.ModelFieldSchema :=
  {| ListForm.name := key; ListForm.type := Some T;
     ListForm.array := isArray; ListForm.nullable := isNullable |}.

Definition mapLeaf (T : string) (isArray isNullable : bool)
  : MapForm.ModelFieldSchema :=
  {| MapForm.type := Some T;
     MapForm.array := isArray; MapForm.nullable := isNullable |}.

(** The record of the list form for a name that matches nothing. *)
Definition ghostRecord : ListForm.ModelSchemas :=
  {| ListForm.primaryKeys := [];
     ListForm.permissions :=
       {| ListForm.get := false; ListForm.insert := false;
          ListForm.update := false; ListForm.delete := false |};
     ListForm.model := [];
     ListForm.insertInput := [];
     ListForm.setInput := [] |}.

(** The record of the list form for [user]. *)
Definition userRecord : ListForm.ModelSchemas :=
  {| ListForm.primaryKeys := [leaf "id" "ID" false false];
     ListForm.permissions :=
       {| ListForm.get := true; ListForm.insert := true;
          ListForm.update := false; ListForm.delete := false |};
     ListForm.model :=
       [leaf "id" "ID" false false;
        leaf "name" "String" false true;
        leaf "roles" "String" true false];
     ListForm.insertInput := [leaf "name" "String" false true];
     ListForm.setInput := [] |}.

(** The records for [user_role]: the model comes from the type under the
    snake_case name, the set input and the delete field from the camelCase
    names. *)
Definition userRoleListRecord : ListForm.ModelSchemas :=
  {| ListForm.primaryKeys := [];
     ListForm.permissions :=
       {| ListForm.get := true; ListForm.insert := false;
          ListForm.update := true; ListForm.delete := true |};
     ListForm.model := [leaf "role" "String" false true];
     ListForm.insertInput := [];
     ListForm.setInput := [leaf "role" "String" false true] |}.

Definition userRoleMapRecord : MapForm.ModelSchemas :=
  {| MapForm.permissions :=
       {| MapForm.insert := false; MapForm.update := true;
          MapForm.delete := true |};
     MapForm.model := Some {[ "role" := mapLeaf "String" false true ]};
     MapForm.insertInput := None;
     MapForm.setInput := Some {[ "role" := mapLeaf "String" false true ]} |}.

(** The record of the map form for [tag]: its insert input resolves and
    flattens to no field. *)
Definition tagRecord : MapForm.ModelSchemas :=
  {| MapForm.permissions :=
       {| MapForm.insert := true; MapForm.update := false;
          MapForm.delete := false |};
     MapForm.model := None;
     MapForm.insertInput := Some ∅;
     MapForm.setInput := None |}.

End Sample.

(** ** A second sample type, with fields of every kind *)

Module Catalog.

Definition article : GraphQLNamedType :=
  {| kind := Object; typeName := "article";
     getFields :=
       [("id", GraphQLNonNull (Named Scalar "uuid"));
        ("title", GraphQLNonNull (Named Scalar "String"));
        ("status", Named Enum "article_status");
        ("tags", GraphQLList (GraphQLNonNull (Named Scalar "String")));
        ("owner", Named Interface "Node");
        ("created_by", Named Scalar "uuid");
        ("created_by_user", Named Object "user");
        ("likes_aggregate_count", Named Scalar "Int")] |}.

Definition withoutAudit : ListForm.BuildModelSchemaOptions :=
  {| ListForm.disableFields := Some ["created_by"; "updated_by"];
     ListForm.primaryKeyNames := ["id"] |}.

Definition withoutAnything : ListForm.BuildModelSchemaOptions :=
  {| ListForm.disableFields := Some ["created_by"; ""];
     ListForm.primaryKeyNames := ["id"] |}.

Definition withoutAggregates : MapForm.BuildModelSchemaOptions :=
  {| MapForm.disableAggregateFields := Some true;
     MapForm.disableFields := Some ["created_by"] |}.

End Catalog.

(** * Properties *)

(** ** The unwrap routine *)

Section Unwrap.

(** What the unwrap returns, in closed form: absent on a structured
    innermost type, otherwise the innermost name with cumulative flags. *)
Lemma list_getInnerSchemaType_closed (t : GraphQLType) (acc : ListForm.ModelFieldSchema) :
  ListForm.getInnerSchemaType t acc =
  if isStructured (namedKind t) then None
  else Some {| ListForm.name := ListForm.name acc;
               ListForm.type := Some (namedName t);
               ListForm.array := ListForm.array acc || hasList t;
               ListForm.nullable := ListForm.nullable acc && negb (hasNonNull t) |}.
Proof.
  revert acc. induction t as [k n | t IH | t IH]; intros acc.
  - destruct acc as [nm ty arr nl]. destruct k; simpl;
      rewrite ?orb_false_r, ?andb_true_r; reflexivity.
  - simpl. rewrite IH. simpl. destruct (isStructured (namedKind t)); [done|].
    rewrite orb_true_r. destruct (ListForm.array acc); reflexivity.
  - simpl. rewrite IH. simpl. destruct (isStructured (namedKind t)); [done|].
    rewrite andb_false_r.
    destruct (ListForm.array acc), (hasList t); reflexivity.
Qed.

Lemma map_getInnerSchemaType_closed (t : GraphQLType) (acc : MapForm.ModelFieldSchema) :
  MapForm.getInnerSchemaType t acc =
  if isStructured (namedKind t) then None
  else Some {| MapForm.type := Some (namedName t);
               MapForm.array := MapForm.array acc || hasList t;
               MapForm.nullable := MapForm.nullable acc && negb (hasNonNull t) |}.
Proof.
  revert acc. induction t as [k n | t IH | t IH]; intros acc.
  - destruct acc as [ty arr nl]. destruct k; simpl;
      rewrite ?orb_false_r, ?andb_true_r; reflexivity.
  - simpl. rewrite IH. simpl. destruct (isStructured (namedKind t)); [done|].
    rewrite orb_true_r. destruct (MapForm.array acc); reflexivity.
  - simpl. rewrite IH. simpl. destruct (isStructured (namedKind t)); [done|].
    rewrite andb_false_r.
    destruct (MapForm.array acc), (hasList t); reflexivity.
Qed.

Lemma list_getInnerSchemaType_structured t acc :
  isStructured (namedKind t) = true -> ListForm.getInnerSchemaType t acc = None.
Proof. intros H. by rewrite list_getInnerSchemaType_closed, H. Qed.

Lemma map_getInnerSchemaType_structured t acc :
  isStructured (namedKind t) = true -> MapForm.getInnerSchemaType t acc = None.
Proof. intros H. by rewrite map_getInnerSchemaType_closed, H. Qed.

End Unwrap.

(** ** Claims on the unwrap routine *)

(** C3, as the code has it: on the shape [[T!]] (the spec's [[String!]]) the
    unwrap yields array=true, type=T and nullable=FALSE, in both plugin
    sources; in general the nullable flag of a kept field is false exactly
    when a non-null wrapper stands anywhere in the wrapper chain, not only
    at its outermost position. *)
Theorem getInnerSchemaType_nullable_list_of_non_null :
  forall (T key : string) (t : GraphQLType),
    ListForm.getInnerSchemaType (nullableListOfNonNull T) (ListForm.initialSchema key)
      = Some {| ListForm.name := key; ListForm.type := Some T;
                ListForm.array := true; ListForm.nullable := false |}
    /\ MapForm.getInnerSchemaType (nullableListOfNonNull T) MapForm.initialSchema
      = Some {| MapForm.type := Some T;
                MapForm.array := true; MapForm.nullable := false |}
    /\ ListForm.nullable <$> ListForm.getInnerSchemaType t (ListForm.initialSchema key)
      = (if isStructured (namedKind t) then None else Some (negb (hasNonNull t)))
    /\ MapForm.nullable <$> MapForm.getInnerSchemaType t MapForm.initialSchema
      = (if isStructured (namedKind t) then None else Some (negb (hasNonNull t))).
Proof.
  intros T key t. repeat split; try reflexivity.
  - rewrite list_getInnerSchemaType_closed.
    by destruct (isStructured (namedKind t)).
  - rewrite map_getInnerSchemaType_closed.
    by destruct (isStructured (namedKind t)).
Qed.

(** C3 as stated fails: on [[String!]] neither plugin source produces a
    descriptor with nullable=true. *)
Lemma getInnerSchemaType_list_of_non_null_not_nullable :
  ~ (exists d,
       ListForm.getInnerSchemaType (nullableListOfNonNull "String")
         (ListForm.initialSchema "roles") = Some d
       /\ ListForm.nullable d = true /\ ListForm.array d = true
       /\ ListForm.type d = Some "String")
  /\ ~ (exists d,
       MapForm.getInnerSchemaType (nullableListOfNonNull "String")
         MapForm.initialSchema = Some d
       /\ MapForm.nullable d = true /\ MapForm.array d = true
       /\ MapForm.type d = Some "String").
Proof.
  split; intros (d & Hd & Hnull & _); simpl in Hd;
    injection Hd as <-; discriminate Hnull.
Qed.

(** C4: for a scalar or enum type named [T], [[T]] unwraps to
    {array: true, nullable: true, type: T}, [[T]!] to {array: true,
    nullable: false, type: T}, [T!] to {array: false, nullable: false,
    type: T} and [T] to {array: false, nullable: true, type: T}. *)
Theorem getInnerSchemaType_wrapped_shapes :
  forall T : string,
    unwrapTable (Named Scalar T) T /\ unwrapTable (Named Enum T) T.
Proof.
  intros T. split; (split; [intros key|]; repeat split; reflexivity).
Qed.

(** ** The field flattener *)

Section Flatten.

Lemma list_fold_addField options (fieldMap : FieldMap) acc :
  fold_left (ListForm.addField options) fieldMap acc
  = (acc ++ omap (flattenEntry options) fieldMap)%list.
Proof.
  revert acc. induction fieldMap as [|[key ty] rest IH]; intros acc; simpl.
  - by rewrite app_nil_r.
  - rewrite IH. unfold flattenEntry, unwrapEntry at 2. simpl.
    destruct (ListForm.isDisabled options key); [done|].
    destruct (ListForm.getInnerSchemaType ty _); [|done].
    by rewrite <- app_assoc.
Qed.

Lemma list_buildModelSchema_omap modelType options :
  ListForm.buildModelSchema modelType options
  = omap (flattenEntry options) (getFields modelType).
Proof. unfold ListForm.buildModelSchema. by rewrite list_fold_addField. Qed.

Lemma flattenEntry_Some options entry d :
  flattenEntry options entry = Some d ->
  ListForm.name d = entry.1 /\ isStructured (namedKind entry.2) = false.
Proof.
  unfold flattenEntry, unwrapEntry.
  destruct (ListForm.isDisabled options entry.1); [done|].
  rewrite list_getInnerSchemaType_closed.
  destruct (isStructured (namedKind entry.2)); [done|].
  by intros [= <-].
Qed.

(** A key of a JavaScript object names one field. *)
Lemma fieldMap_functional (fieldMap : FieldMap) key ty1 ty2 :
  NoDup fieldMap.*1 -> (key, ty1) ∈ fieldMap -> (key, ty2) ∈ fieldMap -> ty1 = ty2.
Proof.
  induction fieldMap as [|[k t] rest IH]; simpl; intros Hnd H1 H2.
  - by apply elem_of_nil in H1.
  - apply NoDup_cons in Hnd as [Hk Hnd].
    apply elem_of_cons in H1 as [H1|H1]; apply elem_of_cons in H2 as [H2|H2].
    + congruence.
    + exfalso. apply Hk. injection H1 as -> ->.
      apply list_elem_of_fmap. by exists (k, ty2).
    + exfalso. apply Hk. injection H2 as -> ->.
      apply list_elem_of_fmap. by exists (k, ty1).
    + by apply IH.
Qed.

Lemma map_fold_addField_None options (fieldMap : FieldMap)
    (acc : gmap string MapForm.ModelFieldSchema) key :
  acc !! key = None ->
  (forall ty, (key, ty) ∈ fieldMap -> isStructured (namedKind ty) = true) ->
  fold_left (MapForm.addField options) fieldMap acc !! key = None.
Proof.
  revert acc. induction fieldMap as [|[k t] rest IH]; intros acc Hacc Hall; [done|].
  simpl. apply IH.
  - destruct (MapForm.isDisabled options k); [done|].
    destruct (decide (k = key)) as [->|Hne].
    + rewrite map_getInnerSchemaType_structured; [done|].
      apply Hall. by left.
    + destruct (MapForm.getInnerSchemaType t _); [|done].
      by rewrite lookup_insert_ne.
  - intros ty Hin. apply Hall. by right.
Qed.

End Flatten.

(** C5: a field whose type unwraps, through any chain of non-null and list
    wrappers, to an object or input-object type is absent from the
    flattened result of [buildModelSchema]: no descriptor of the list form
    carries its name, and the map form has no entry under its name. *)
Theorem buildModelSchema_drops_structured_fields :
  forall (modelType : GraphQLNamedType) (key : string) (fieldType : GraphQLType)
         (listOptions : ListForm.BuildModelSchemaOptions)
         (mapOptions : MapForm.BuildModelSchemaOptions),
    NoDup (getFields modelType).*1 ->
    (key, fieldType) ∈ getFields modelType ->
    isStructured (namedKind fieldType) = true ->
    (forall d, d ∈ ListForm.buildModelSchema modelType listOptions ->
               ListForm.name d <> key)
    /\ MapForm.buildModelSchema modelType mapOptions !! key = None.
Proof.
  intros modelType key fieldType lo mo Hnd Hin Hstruct. split.
  - intros d Hd Hname. rewrite list_buildModelSchema_omap in Hd.
    apply list_elem_of_omap in Hd as ([k ty] & Hentry & Hflat).
    apply flattenEntry_Some in Hflat as [Hk Hleaf]. simpl in *. subst k.
    rewrite Hname in Hentry.
    rewrite (fieldMap_functional _ _ _ _ Hnd Hentry Hin) in Hleaf. congruence.
  - unfold MapForm.buildModelSchema. apply map_fold_addField_None; [done|].
    intros ty Hty. by rewrite (fieldMap_functional _ _ _ _ Hnd Hty Hin).
Qed.

Lemma buildModelSchema_drops_structured_fields_witness :
  (forall d, d ∈ ListForm.buildModelSchema Sample.user Sample.listOptions ->
             ListForm.name d <> "posts")
  /\ MapForm.buildModelSchema Sample.user Sample.mapOptions !! "posts" = None.
Proof.
  apply (buildModelSchema_drops_structured_fields Sample.user "posts"
           (GraphQLNonNull (GraphQLList (GraphQLNonNull (Named Object "post"))))).
  - apply (bool_decide_unpack _). vm_compute. exact I.
  - apply (bool_decide_unpack _). vm_compute. exact I.
  - reflexivity.
Defined.

(** C10: with [disableFields] absent, [buildModelSchema] (a total function)
    excludes no field on account of it: the list form keeps every field the
    unwrap keeps, and the map form is left with its aggregate exclusion
    alone. *)
Theorem buildModelSchema_without_disableFields :
  forall (modelType : GraphQLNamedType) (primaryKeyNames : list string)
         (aggregate : option bool),
    ListForm.buildModelSchema modelType
      {| ListForm.disableFields := None;
         ListForm.primaryKeyNames := primaryKeyNames |}
    = omap unwrapEntry (getFields modelType)
    /\ MapForm.buildModelSchema modelType
      {| MapForm.disableAggregateFields := aggregate;
         MapForm.disableFields := None |}
    = fold_left (addFieldAggregateOnly aggregate) (getFields modelType) ∅.
Proof.
  intros modelType pk aggregate. split.
  - rewrite list_buildModelSchema_omap. apply list_omap_ext.
    apply Forall2_same_length_lookup_2; [done|].
    intros i [k ty] e2 H1 H2. rewrite H1 in H2. by injection H2 as <-.
  - unfold MapForm.buildModelSchema. generalize (∅ : gmap string MapForm.ModelFieldSchema).
    induction (getFields modelType) as [|[k ty] rest IH]; intros acc; [done|].
    simpl. rewrite IH. f_equal.
    unfold addFieldAggregateOnly, MapForm.isDisabled. simpl.
    by rewrite orb_false_r.
Qed.

(** ** The reduction over the model names *)

Section Reduce.
Context {R : Type} (step : string -> result R).

Lemma fold_addResult_Throw names e :
  fold_left (addResult step) names (Throw e) = Throw e.
Proof. induction names as [|m rest IH]; [done|]. exact IH. Qed.

(** A record of the output is the record its own model name produced. *)
Lemma fold_addResult_lookup names acc out n r :
  fold_left (addResult step) names (Ok acc) = Ok out ->
  out !! n = Some r ->
  (n ∈ names /\ step n = Ok r) \/ ((n ∉ names) /\ acc !! n = Some r).
Proof.
  revert acc. induction names as [|m rest IH]; intros acc Hfold Hlook.
  - injection Hfold as <-. right. split; [apply not_elem_of_nil | done].
  - simpl in Hfold.
    destruct (step m) as [rm|e] eqn:Hm; simpl in Hfold.
    + destruct (IH _ Hfold Hlook) as [[Hin Hn]|[Hnin Hacc]].
      * left. split; [by right | done].
      * destruct (decide (m = n)) as [->|Hne].
        -- rewrite lookup_insert_eq in Hacc. injection Hacc as <-.
           left. split; [by left | done].
        -- rewrite lookup_insert_ne in Hacc by done.
           right. split; [|done]. by apply not_elem_of_cons.
    + by rewrite fold_addResult_Throw in Hfold.
Qed.

(** The first model name that throws ends the whole reduction. *)
Lemma fold_addResult_first_Throw before m after acc e :
  Forall (fun x => exists r, step x = Ok r) before ->
  step m = Throw e ->
  fold_left (addResult step) (before ++ m :: after)%list (Ok acc) = Throw e.
Proof.
  intros Hbefore Hm. revert acc.
  induction Hbefore as [|x rest [r Hx] _ IH]; intros acc; simpl.
  - rewrite Hm. simpl. apply fold_addResult_Throw.
  - rewrite Hx. simpl. apply IH.
Qed.

Lemma fold_addResult_total names acc :
  (forall x, exists r, step x = Ok r) ->
  exists out, fold_left (addResult step) names (Ok acc) = Ok out.
Proof.
  intros Hstep. revert acc. induction names as [|m rest IH]; intros acc; simpl.
  - by exists acc.
  - destruct (Hstep m) as [r ->]. simpl. apply IH.
Qed.

End Reduce.

(** ** Type resolution *)

Section Resolution.
Context (conv : CaseConversion).

(** The lookup of the source (snake_case name if of the expected kind, else
    whatever the camelCase name gives, the kind tested again at the use)
    is the ordered resolution. *)
Lemma resolve_two_steps {A} (k : TypeKind) schema snakeName camelName
    (f : GraphQLNamedType -> A) (d : A) :
  match (if isKind k (getType schema snakeName)
         then getType schema snakeName else getType schema camelName) with
  | Some t => if isKind k (Some t) then f t else d
  | None => d
  end = from_option f d (resolveType k schema snakeName camelName).
Proof.
  unfold resolveType, lookupOfKind, isKind.
  destruct (getType schema snakeName) as [ts|]; simpl.
  - destruct (bool_decide (kind ts = k)) eqn:E; simpl; [by rewrite E|].
    destruct (getType schema camelName) as [tc|]; simpl; [|done].
    by destruct (bool_decide (kind tc = k)).
  - destruct (getType schema camelName) as [tc|]; simpl; [|done].
    by destruct (bool_decide (kind tc = k)).
Qed.

Lemma canDelete_resolveDelete mutationFields snakeName camelName :
  nullableToBoolean
    (nullish (fieldAt mutationFields snakeName) (fieldAt mutationFields camelName))
  = resolveDelete mutationFields snakeName camelName.
Proof.
  unfold resolveDelete, hasField.
  destruct (fieldAt mutationFields snakeName); simpl; [done|].
  by destruct (fieldAt mutationFields camelName).
Qed.

End Resolution.

(** ** The records of the list form *)

Section ListRecords.
Context (conv : CaseConversion).

(** The final guard of the list form never fires: its three operands are
    arrays, and an array is truthy. *)
Lemma list_modelSchemasOf_Ok schema mutationFields options modelName :
  ListForm.modelSchemasOf conv schema mutationFields options modelName
  = Ok (listRecord conv schema mutationFields options modelName).
Proof.
  unfold ListForm.modelSchemasOf, listRecord, listFlatten.
  unfold isObjectType, isInputObjectType. cbv zeta. simpl negb. simpl andb.
  cbv iota. rewrite !resolve_two_steps, canDelete_resolveDelete. reflexivity.
Qed.

Lemma list_buildModelSchemas_lookup models schema options out n r :
  ListForm.buildModelSchemas conv models schema options = Ok out ->
  out !! n = Some r ->
  exists mutationType names,
    getMutationType schema = Some mutationType /\ models = Some names
    /\ n ∈ names
    /\ r = listRecord conv schema (getFields mutationType) options n.
Proof.
  unfold ListForm.buildModelSchemas. intros Hout Hlook.
  destruct (getMutationType schema) as [mt|]; [|done].
  destruct models as [names|]; [|done].
  exists mt, names. repeat split; try done;
    destruct (fold_addResult_lookup
                (ListForm.modelSchemasOf conv schema (getFields mt) options)
                names ∅ out n r Hout Hlook) as [[Hin Hr]|[_ Hempty]];
    try done.
  rewrite list_modelSchemasOf_Ok in Hr. by injection Hr as <-.
Qed.

End ListRecords.

(** ** The records of the map form *)

Section MapRecords.
Context (conv : CaseConversion).

Lemma map_modelSchemasOf_closed schema mutationFields options modelName :
  MapForm.modelSchemasOf conv schema mutationFields options modelName
  = let r := mapRecord conv schema mutationFields options modelName in
    if negb (nullableToBoolean (MapForm.model r))
       && negb (nullableToBoolean (MapForm.insertInput r))
       && negb (nullableToBoolean (MapForm.setInput r))
    then Throw (modelError modelName) else Ok r.
Proof.
  unfold MapForm.modelSchemasOf, mapRecord, mapFlatten.
  unfold isObjectType, isInputObjectType. cbv zeta. simpl.
  rewrite !resolve_two_steps, canDelete_resolveDelete.
  destruct (resolveType Object _ _ _), (resolveType InputObject schema
    (fieldInsertInputName conv modelName) _), (resolveType InputObject schema
    (fieldSetInputName conv modelName) _); reflexivity.
Qed.

Lemma map_modelSchemasOf_unresolved schema mutationFields options modelName :
  unresolved conv schema modelName ->
  MapForm.modelSchemasOf conv schema mutationFields options modelName
  = Throw (modelError modelName).
Proof.
  intros (Hm & Hi & Hs). rewrite map_modelSchemasOf_closed.
  unfold mapRecord, mapFlatten. simpl. by rewrite Hm, Hi, Hs.
Qed.

Lemma map_modelSchemasOf_Ok_inv schema mutationFields options modelName r :
  MapForm.modelSchemasOf conv schema mutationFields options modelName = Ok r ->
  r = mapRecord conv schema mutationFields options modelName.
Proof.
  rewrite map_modelSchemasOf_closed. cbv zeta.
  destruct (_ && _); [done|]. by intros [= <-].
Qed.

Lemma map_buildModelSchemas_lookup tables schema options out n r :
  MapForm.buildModelSchemas conv tables schema options = Ok out ->
  out !! n = Some r ->
  exists mutationType names,
    getMutationType schema = Some mutationType /\ tables = Some names
    /\ n ∈ names
    /\ r = mapRecord conv schema (getFields mutationType) options n.
Proof.
  unfold MapForm.buildModelSchemas. intros Hout Hlook.
  destruct (getMutationType schema) as [mt|]; [|done].
  destruct tables as [names|]; [|done].
  exists mt, names. repeat split; try done;
    destruct (fold_addResult_lookup
                (MapForm.modelSchemasOf conv schema (getFields mt) options)
                names ∅ out n r Hout Hlook) as [[Hin Hr]|[_ Hempty]];
    try done.
  by apply map_modelSchemasOf_Ok_inv in Hr.
Qed.

End MapRecords.

(** ** Claims on [buildModelSchemas] *)

Lemma sample_list_user :
  ListForm.buildModelSchemas Sample.lowercaseNames (Some ["user"])
    Sample.schema Sample.listOptions = Ok {[ "user" := Sample.userRecord ]}.
Proof. vm_compute. reflexivity. Qed.

Lemma sample_list_user_role :
  ListForm.buildModelSchemas Sample.lowercaseNames (Some ["user_role"])
    Sample.schema Sample.listOptions
  = Ok {[ "user_role" := Sample.userRoleListRecord ]}.
Proof. vm_compute. reflexivity. Qed.

Lemma sample_map_user_role :
  MapForm.buildModelSchemas Sample.lowercaseNames (Some ["user_role"])
    Sample.schema Sample.mapOptions
  = Ok {[ "user_role" := Sample.userRoleMapRecord ]}.
Proof. vm_compute. reflexivity. Qed.

Lemma sample_map_tag :
  MapForm.buildModelSchemas Sample.lowercaseNames (Some ["tag"])
    Sample.schema Sample.mapOptions = Ok {[ "tag" := Sample.tagRecord ]}.
Proof. vm_compute. reflexivity. Qed.

(** The list form ends with the model-resolution error on no input: with a
    mutation type and a list of names it always returns. *)
Lemma list_buildModelSchemas_returns conv names schema mutationType options :
  getMutationType schema = Some mutationType ->
  exists out,
    ListForm.buildModelSchemas conv (Some names) schema options = Ok out.
Proof.
  intros Hmt. unfold ListForm.buildModelSchemas. rewrite Hmt.
  apply (fold_addResult_total
           (ListForm.modelSchemasOf conv schema (getFields mutationType) options)).
  intros x. eexists. apply list_modelSchemasOf_Ok.
Qed.

Lemma map_modelSchemasOf_resolved conv schema mutationFields options modelName :
  ~ unresolved conv schema modelName ->
  exists r,
    MapForm.modelSchemasOf conv schema mutationFields options modelName = Ok r.
Proof.
  intros Hres. rewrite map_modelSchemasOf_closed. cbv zeta.
  unfold mapRecord, mapFlatten, unresolved in *. simpl.
  destruct (resolveType Object _ _ _); [by eexists|].
  destruct (resolveType InputObject schema (fieldInsertInputName conv modelName) _);
    [by eexists|].
  destruct (resolveType InputObject schema (fieldSetInputName conv modelName) _);
    [by eexists|].
  by destruct Hres.
Qed.

(** The map form does raise the error, naming the first model name of the
    list none of whose three slots resolves. *)
Lemma map_buildModelSchemas_unresolved conv before m after schema mutationType options :
  getMutationType schema = Some mutationType ->
  Forall (fun x => ~ unresolved conv schema x) before ->
  unresolved conv schema m ->
  MapForm.buildModelSchemas conv (Some (before ++ m :: after)%list) schema options
  = Throw (modelError m).
Proof.
  intros Hmt Hbefore Hm. unfold MapForm.buildModelSchemas. rewrite Hmt.
  apply (fold_addResult_first_Throw
           (MapForm.modelSchemasOf conv schema (getFields mutationType) options)).
  - eapply Forall_impl; [exact Hbefore|].
    intros x Hx. by apply map_modelSchemasOf_resolved.
  - by apply map_modelSchemasOf_unresolved.
Qed.

(** C1, at the failing input: the model name "ghost" resolves in none of its
    three slots under either naming convention, and [buildModelSchemas] of
    [src/index.ts] returns a record for it (empty collections, every
    permission false) where the claim has it raise the model-resolution
    error; the map form raises it on the same input. *)
Theorem list_buildModelSchemas_accepts_unresolved_model :
  unresolved Sample.lowercaseNames Sample.schema "ghost"
  /\ ListForm.buildModelSchemas Sample.lowercaseNames (Some ["ghost"])
       Sample.schema Sample.listOptions
     = Ok {[ "ghost" := Sample.ghostRecord ]}
  /\ MapForm.buildModelSchemas Sample.lowercaseNames (Some ["ghost"])
       Sample.schema Sample.mapOptions
     = Throw (modelError "ghost").
Proof.
  split; [|split].
  - repeat split; vm_compute; reflexivity.
  - vm_compute. reflexivity.
  - vm_compute. reflexivity.
Qed.

(** C9: on a schema with no mutation type, [buildModelSchemas] and [plugin]
    of both plugin sources end with the TypeError of
    [schema.getMutationType().getFields()], whatever the model names are
    and whether or not their types resolve. *)
Theorem buildModelSchemas_without_mutation_type :
  forall (schema : GraphQLSchema),
    getMutationType schema = None ->
    forall (conv : CaseConversion)
           (models : option (list string))
           (listOptions : ListForm.BuildModelSchemaOptions)
           (mapOptions : MapForm.BuildModelSchemaOptions)
           (listStringify : gmap string ListForm.ModelSchemas -> string)
           (mapStringify : gmap string MapForm.ModelSchemas -> string)
           (listConfig : ListForm.Config.HasuraGraphQLConfig)
           (mapConfig : MapForm.Config.HasuraGraphQLConfig),
      ListForm.buildModelSchemas conv models schema listOptions = Throw TypeError
      /\ MapForm.buildModelSchemas conv models schema mapOptions = Throw TypeError
      /\ ListForm.plugin conv listStringify schema listConfig = Throw TypeError
      /\ MapForm.plugin conv mapStringify schema mapConfig = Throw TypeError.
Proof.
  intros schema Hmt conv models lo mo ls ms lc mc.
  unfold ListForm.plugin, MapForm.plugin,
    ListForm.buildModelSchemas, MapForm.buildModelSchemas.
  rewrite Hmt. repeat split.
Qed.

Lemma buildModelSchemas_without_mutation_type_witness :
  ListForm.buildModelSchemas Sample.lowercaseNames (Some ["user"])
    Sample.queryOnlySchema Sample.listOptions = Throw TypeError
  /\ MapForm.buildModelSchemas Sample.lowercaseNames (Some ["user"])
       Sample.queryOnlySchema Sample.mapOptions = Throw TypeError
  /\ ListForm.plugin Sample.lowercaseNames (fun _ => "{}")
       Sample.queryOnlySchema Sample.listConfig = Throw TypeError
  /\ MapForm.plugin Sample.lowercaseNames (fun _ => "{}")
       Sample.queryOnlySchema
       {| MapForm.Config.commentDescriptions := None;
          MapForm.Config.tables := Some ["user"];
          MapForm.Config.maxDepth := None;
          MapForm.Config.disableAggregateFields := None;
          MapForm.Config.disableFields := None |} = Throw TypeError.
Proof.
  exact (buildModelSchemas_without_mutation_type Sample.queryOnlySchema eq_refl
           Sample.lowercaseNames (Some ["user"]) Sample.listOptions
           Sample.mapOptions (fun _ => "{}") (fun _ => "{}") Sample.listConfig _).
Defined.

(** ** Claims on [validate] *)

Lemma maxDepth_guard (n : number) :
  numberToBoolean n && leZero n = ltZero n.
Proof.
  destruct n as [| | |[num den]]; try reflexivity.
  unfold numberToBoolean, leZero, ltZero, QArith_base.Qeq_bool,
    QArith_base.Qle_bool. simpl.
  rewrite Z.mul_1_r. by destruct num.
Qed.

(** [validate] throws exactly on a [maxDepth] that is below zero. *)
Lemma list_validate_Throw config :
  ListForm.validate config = Throw maxDepthError
  <-> exists n, ListForm.Config.maxDepth config = Some n /\ ltZero n = true.
Proof.
  unfold ListForm.validate.
  destruct (ListForm.Config.maxDepth config) as [n|].
  - rewrite maxDepth_guard. destruct (ltZero n) eqn:E.
    + split; [by exists n|done].
    + split; [done|]. intros (n' & [= <-] & H). congruence.
  - split; [done|]. by intros (n & H & _).
Qed.

Lemma map_validate_Throw config :
  MapForm.validate config = Throw maxDepthError
  <-> exists n, MapForm.Config.maxDepth config = Some n /\ ltZero n = true.
Proof.
  unfold MapForm.validate.
  destruct (MapForm.Config.maxDepth config) as [n|].
  - rewrite maxDepth_guard. destruct (ltZero n) eqn:E.
    + split; [by exists n|done].
    + split; [done|]. intros (n' & [= <-] & H). congruence.
  - split; [done|]. by intros (n & H & _).
Qed.

(** C2, at the failing input: with [maxDepth] equal to 0 the guard
    [_config.maxDepth && _config.maxDepth <= 0] is falsy on its first
    operand, and [validate] returns without the configuration error, in
    both plugin sources and whatever the other options are. *)
Theorem validate_accepts_zero_maxDepth :
  forall (models disableFields primaryKeyNames tables : option (list string))
         (commentDescriptions disableAggregateFields : option bool),
    ListForm.validate
      {| ListForm.Config.models := models;
         ListForm.Config.maxDepth := Some (ofZ 0);
         ListForm.Config.disableFields := disableFields;
         ListForm.Config.primaryKeyNames := primaryKeyNames |} = Ok tt
    /\ MapForm.validate
      {| MapForm.Config.commentDescriptions := commentDescriptions;
         MapForm.Config.tables := tables;
         MapForm.Config.maxDepth := Some (ofZ 0);
         MapForm.Config.disableAggregateFields := disableAggregateFields;
         MapForm.Config.disableFields := disableFields |} = Ok tt.
Proof. intros. split; reflexivity. Qed.

Example validate_rejects_negative_maxDepth :
  ListForm.validate
    {| ListForm.Config.models := None;
       ListForm.Config.maxDepth := Some (ofZ (-1));
       ListForm.Config.disableFields := None;
       ListForm.Config.primaryKeyNames := None |} = Throw maxDepthError.
Proof. reflexivity. Qed.

Example validate_accepts_absent_and_positive_maxDepth :
  ListForm.validate Sample.listConfig = Ok tt
  /\ ListForm.validate
       {| ListForm.Config.models := None;
          ListForm.Config.maxDepth := Some (ofZ 1);
          ListForm.Config.disableFields := None;
          ListForm.Config.primaryKeyNames := None |} = Ok tt.
Proof. split; reflexivity. Qed.

(** ** Claims on the records *)

Lemma resolveDelete_true schema mutationType snakeName camelName :
  getMutationType schema = Some mutationType ->
  resolveDelete (getFields mutationType) snakeName camelName = true
  <-> hasMutationField schema snakeName \/ hasMutationField schema camelName.
Proof.
  intros Hmt. unfold resolveDelete, hasField, hasMutationField.
  rewrite orb_true_iff. split.
  - intros [H|H]; [left|right];
      destruct (fieldAt (getFields mutationType) _) as [f|] eqn:E; try done;
      by exists mutationType, f.
  - intros [(mt & f & Hmt' & Hf)|(mt & f & Hmt' & Hf)]; [left|right];
      rewrite Hmt in Hmt'; injection Hmt' as <-; by rewrite Hf.
Qed.

Lemma length_pos_nonempty {A} (l : list A) :
  bool_decide (0 < length l) = true <-> l <> [].
Proof.
  rewrite bool_decide_eq_true. destruct l; simpl; split; try done; lia.
Qed.

Lemma nullableToBoolean_is_Some {A} (o : option A) :
  nullableToBoolean o = true <-> is_Some o.
Proof.
  destruct o; simpl; split; done.
Qed.

(** C6, as the code has it: in the list form get, insert and update are
    true exactly when the corresponding flattened list is non-empty; in the
    map form (which has no get flag) insert and update are true exactly
    when the corresponding input type resolved, that is when the collection
    is present, be it empty; in both, delete is true exactly when a
    mutation field named [delete_<model>] or its camelCase form exists,
    whatever the type map holds. *)
Theorem permissions_of_records :
  forall (conv : CaseConversion) (schema : GraphQLSchema)
         (models : option (list string))
         (listOptions : ListForm.BuildModelSchemaOptions)
         (mapOptions : MapForm.BuildModelSchemaOptions),
    (forall out n r,
       ListForm.buildModelSchemas conv models schema listOptions = Ok out ->
       out !! n = Some r ->
       (ListForm.get (ListForm.permissions r) = true <-> ListForm.model r <> [])
       /\ (ListForm.insert (ListForm.permissions r) = true
           <-> ListForm.insertInput r <> [])
       /\ (ListForm.update (ListForm.permissions r) = true
           <-> ListForm.setInput r <> [])
       /\ (ListForm.delete (ListForm.permissions r) = true
           <-> hasMutationField schema (deleteFieldName conv n)
               \/ hasMutationField schema (deleteFieldNameCamelCase conv n)))
    /\ (forall out n r,
       MapForm.buildModelSchemas conv models schema mapOptions = Ok out ->
       out !! n = Some r ->
       (MapForm.insert (MapForm.permissions r) = true
        <-> is_Some (MapForm.insertInput r))
       /\ (MapForm.update (MapForm.permissions r) = true
           <-> is_Some (MapForm.setInput r))
       /\ (MapForm.delete (MapForm.permissions r) = true
           <-> hasMutationField schema (deleteFieldName conv n)
               \/ hasMutationField schema (deleteFieldNameCamelCase conv n))).
Proof.
  intros conv schema models lo mo. split; intros out n r Hout Hlook.
  - destruct (list_buildModelSchemas_lookup conv _ _ _ _ _ _ Hout Hlook)
      as (mt & names & Hmt & _ & _ & ->).
    unfold listRecord. simpl.
    rewrite !length_pos_nonempty. repeat split; try tauto;
      by apply resolveDelete_true.
  - destruct (map_buildModelSchemas_lookup conv _ _ _ _ _ _ Hout Hlook)
      as (mt & names & Hmt & _ & _ & ->).
    unfold mapRecord. simpl.
    rewrite !nullableToBoolean_is_Some. repeat split; try tauto;
      by apply resolveDelete_true.
Qed.

Lemma permissions_of_records_witness :
  ((ListForm.get (ListForm.permissions Sample.userRoleListRecord) = true
    <-> ListForm.model Sample.userRoleListRecord <> [])
   /\ (ListForm.insert (ListForm.permissions Sample.userRoleListRecord) = true
       <-> ListForm.insertInput Sample.userRoleListRecord <> [])
   /\ (ListForm.update (ListForm.permissions Sample.userRoleListRecord) = true
       <-> ListForm.setInput Sample.userRoleListRecord <> [])
   /\ (ListForm.delete (ListForm.permissions Sample.userRoleListRecord) = true
       <-> hasMutationField Sample.schema
             (deleteFieldName Sample.lowercaseNames "user_role")
           \/ hasMutationField Sample.schema
                (deleteFieldNameCamelCase Sample.lowercaseNames "user_role")))
  /\ ((MapForm.insert (MapForm.permissions Sample.userRoleMapRecord) = true
       <-> is_Some (MapForm.insertInput Sample.userRoleMapRecord))
      /\ (MapForm.update (MapForm.permissions Sample.userRoleMapRecord) = true
          <-> is_Some (MapForm.setInput Sample.userRoleMapRecord))
      /\ (MapForm.delete (MapForm.permissions Sample.userRoleMapRecord) = true
          <-> hasMutationField Sample.schema
                (deleteFieldName Sample.lowercaseNames "user_role")
              \/ hasMutationField Sample.schema
                   (deleteFieldNameCamelCase Sample.lowercaseNames "user_role"))).
Proof.
  split.
  - exact (proj1 (permissions_of_records Sample.lowercaseNames Sample.schema
                    (Some ["user_role"]) Sample.listOptions Sample.mapOptions)
             {[ "user_role" := Sample.userRoleListRecord ]} "user_role"
             Sample.userRoleListRecord sample_list_user_role eq_refl).
  - exact (proj2 (permissions_of_records Sample.lowercaseNames Sample.schema
                    (Some ["user_role"]) Sample.listOptions Sample.mapOptions)
             {[ "user_role" := Sample.userRoleMapRecord ]} "user_role"
             Sample.userRoleMapRecord sample_map_user_role eq_refl).
Defined.

(** C6 as stated fails in the map form: for [tag] the insert input resolves
    and flattens to the empty object, and the insert permission is true
    over an empty collection. *)
Lemma map_insert_permission_over_empty_collection :
  exists r,
    MapForm.buildModelSchemas Sample.lowercaseNames (Some ["tag"])
      Sample.schema Sample.mapOptions = Ok {[ "tag" := r ]}
    /\ ~ (MapForm.insert (MapForm.permissions r) = true
          <-> mapNonEmpty (MapForm.insertInput r)).
Proof.
  exists Sample.tagRecord. split; [exact sample_map_tag|].
  intros [Hto _]. destruct (Hto eq_refl) as (fields & Hsome & Hne).
  injection Hsome as <-. by apply Hne.
Qed.

(** C7: in [src/index.ts], as [plugin] calls [buildModelSchemas]: when the
    pk-columns input type resolves to an input-object type the primaryKeys
    list of a record is its flattening; otherwise it is the flattened model
    field list filtered to the names of the configured primaryKeyNames,
    which is ["id"] when the option is absent. *)
Theorem primaryKeys_of_records :
  forall (conv : CaseConversion) (schema : GraphQLSchema)
         (config : ListForm.Config.HasuraGraphQLConfig)
         (out : gmap string ListForm.ModelSchemas)
         (n : string) (r : ListForm.ModelSchemas),
    ListForm.buildModelSchemas conv (ListForm.Config.models config) schema
      (ListForm.pluginOptions config) = Ok out ->
    out !! n = Some r ->
    ListForm.primaryKeys r
    = match resolveType InputObject schema
              (fieldPkColumnsName conv n) (fieldPkColumnsNameCamelCase conv n) with
      | Some pkInputType =>
          ListForm.buildModelSchema pkInputType (ListForm.pluginOptions config)
      | None =>
          filter
            (fun m => ListForm.name m
                      ∈ default ["id"] (ListForm.Config.primaryKeyNames config))
            (ListForm.model r)
      end.
Proof.
  intros conv schema config out n r Hout Hlook.
  destruct (list_buildModelSchemas_lookup conv _ _ _ _ _ _ Hout Hlook)
    as (mt & names & _ & _ & _ & ->).
  unfold listRecord. simpl.
  by destruct (resolveType InputObject schema (fieldPkColumnsName conv n) _).
Qed.

Lemma sample_plugin_user :
  ListForm.buildModelSchemas Sample.lowercaseNames
    (ListForm.Config.models Sample.listConfig) Sample.schema
    (ListForm.pluginOptions Sample.listConfig)
  = Ok {[ "user" := Sample.userRecord ]}.
Proof. vm_compute. reflexivity. Qed.

Lemma primaryKeys_of_records_witness :
  ListForm.primaryKeys Sample.userRecord
  = match resolveType InputObject Sample.schema
            (fieldPkColumnsName Sample.lowercaseNames "user")
            (fieldPkColumnsNameCamelCase Sample.lowercaseNames "user") with
    | Some pkInputType =>
        ListForm.buildModelSchema pkInputType
          (ListForm.pluginOptions Sample.listConfig)
    | None =>
        filter
          (fun m => ListForm.name m
                    ∈ default ["id"]
                        (ListForm.Config.primaryKeyNames Sample.listConfig))
          (ListForm.model Sample.userRecord)
    end.
Proof.
  exact (primaryKeys_of_records Sample.lowercaseNames Sample.schema
           Sample.listConfig {[ "user" := Sample.userRecord ]} "user"
           Sample.userRecord sample_plugin_user eq_refl).
Defined.

(** C8: every slot of a record comes from the ordered resolution of its
    handle: the snake_case name if it names a type of the expected kind
    (object type for the model, input-object type for the insert, set and
    pk-columns inputs), else the camelCase name under the same kind check,
    else absent; the delete flag looks up the snake_case field name, then
    the camelCase one. Each slot is resolved on its own. The map form has
    no pk-columns slot. *)
Theorem resolution_snake_before_camel :
  forall (conv : CaseConversion) (schema : GraphQLSchema)
         (models : option (list string))
         (listOptions : ListForm.BuildModelSchemaOptions)
         (mapOptions : MapForm.BuildModelSchemaOptions),
    (forall out n r,
       ListForm.buildModelSchemas conv models schema listOptions = Ok out ->
       out !! n = Some r ->
       listSlotsResolved conv schema listOptions n r)
    /\ (forall out n r,
       MapForm.buildModelSchemas conv models schema mapOptions = Ok out ->
       out !! n = Some r ->
       mapSlotsResolved conv schema mapOptions n r).
Proof.
  intros conv schema models lo mo. split; intros out n r Hout Hlook.
  - destruct (list_buildModelSchemas_lookup conv _ _ _ _ _ _ Hout Hlook)
      as (mt & names & Hmt & _ & _ & ->).
    exists mt. by repeat split.
  - destruct (map_buildModelSchemas_lookup conv _ _ _ _ _ _ Hout Hlook)
      as (mt & names & Hmt & _ & _ & ->).
    exists mt. by repeat split.
Qed.

Lemma resolution_snake_before_camel_witness :
  listSlotsResolved Sample.lowercaseNames Sample.schema Sample.listOptions
    "user_role" Sample.userRoleListRecord
  /\ mapSlotsResolved Sample.lowercaseNames Sample.schema Sample.mapOptions
       "user_role" Sample.userRoleMapRecord.
Proof.
  split.
  - exact (proj1 (resolution_snake_before_camel Sample.lowercaseNames
                    Sample.schema (Some ["user_role"])
                    Sample.listOptions Sample.mapOptions)
             {[ "user_role" := Sample.userRoleListRecord ]} "user_role"
             Sample.userRoleListRecord sample_list_user_role eq_refl).
  - exact (proj2 (resolution_snake_before_camel Sample.lowercaseNames
                    Sample.schema (Some ["user_role"])
                    Sample.listOptions Sample.mapOptions)
             {[ "user_role" := Sample.userRoleMapRecord ]} "user_role"
             Sample.userRoleMapRecord sample_map_user_role eq_refl).
Defined.

(** With both names in the schema the snake_case one wins: the model of
    [user_role] is flattened from the type [user_role], not from
    [userRole]. *)
Example resolve_user_role :
  resolveType Object Sample.schema
    (fieldName Sample.lowercaseNames "user_role")
    (fieldNameCamelCase Sample.lowercaseNames "user_role")
  = Some Sample.user_role
  /\ getType Sample.schema (fieldNameCamelCase Sample.lowercaseNames "user_role")
     = Some Sample.userRole
  /\ resolveType InputObject Sample.schema
       (fieldSetInputName Sample.lowercaseNames "user_role")
       (fieldSetInputNameCamelCase Sample.lowercaseNames "user_role")
     = Some Sample.userRoleSetInput.
Proof. repeat split; vm_compute; reflexivity. Qed.

(** * Further properties of the plugin sources *)

(** ** The unwrap routine *)

(** X1: for any type and any accumulator the unwrap returns nothing exactly
    when the innermost named type is an object or input-object type;
    otherwise it returns the accumulator with [type] set to the innermost
    name, [array] raised when a list wrapper occurs anywhere, [nullable]
    cleared when a non-null wrapper occurs anywhere, and (list form) the
    [name] untouched. *)
Theorem getInnerSchemaType_closed_form :
  forall (t : GraphQLType)
         (listAcc : ListForm.ModelFieldSchema) (mapAcc : MapForm.ModelFieldSchema),
    ListForm.getInnerSchemaType t listAcc
    = (if isStructured (namedKind t) then None
       else Some {| ListForm.name := ListForm.name listAcc;
                    ListForm.type := Some (namedName t);
                    ListForm.array := ListForm.array listAcc || hasList t;
                    ListForm.nullable :=
                      ListForm.nullable listAcc && negb (hasNonNull t) |})
    /\ MapForm.getInnerSchemaType t mapAcc
      = (if isStructured (namedKind t) then None
         else Some {| MapForm.type := Some (namedName t);
                      MapForm.array := MapForm.array mapAcc || hasList t;
                      MapForm.nullable :=
                        MapForm.nullable mapAcc && negb (hasNonNull t) |}).
Proof.
  intros t la ma. split.
  - apply list_getInnerSchemaType_closed.
  - apply map_getInnerSchemaType_closed.
Qed.

(** ** The field flattener *)

Section FlattenMore.

Lemma flattenEntry_kept options entry :
  flattenEntry options entry
  = if listKept options entry then Some (listDescriptor entry) else None.
Proof.
  unfold flattenEntry, unwrapEntry, listKept, listDescriptor.
  destruct (ListForm.isDisabled options entry.1); [done|].
  rewrite list_getInnerSchemaType_closed.
  by destruct (isStructured (namedKind entry.2)).
Qed.

Lemma omap_flattenEntry_filter options (fieldMap : list (string * GraphQLType)) :
  omap (flattenEntry options) fieldMap
  = listDescriptor <$> filter (fun e => listKept options e) fieldMap.
Proof.
  induction fieldMap as [|e rest IH]; [done|].
  rewrite filter_cons. csimpl. rewrite flattenEntry_kept, IH.
  by destruct (listKept options e).
Qed.

Lemma list_buildModelSchema_filter modelType options :
  ListForm.buildModelSchema modelType options
  = listDescriptor
      <$> filter (fun e => listKept options e)
            (getFields modelType : list (string * GraphQLType)).
Proof. rewrite list_buildModelSchema_omap. apply omap_flattenEntry_filter. Qed.

Lemma fieldAt_notin (fieldMap : FieldMap) key :
  key ∉ fieldMap.*1 -> fieldAt fieldMap key = None.
Proof.
  induction fieldMap as [|[k t] rest IH]; [done|]. simpl. intros Hnin.
  apply not_elem_of_cons in Hnin as [Hne Hnin].
  destruct (String.eqb_spec k key); [congruence|]. by apply IH.
Qed.

Lemma fieldAt_in (fieldMap : FieldMap) key ty :
  NoDup fieldMap.*1 -> (key, ty) ∈ fieldMap -> fieldAt fieldMap key = Some ty.
Proof.
  induction fieldMap as [|[k t] rest IH]; simpl; intros Hnd Hin.
  - by apply elem_of_nil in Hin.
  - apply NoDup_cons in Hnd as [Hk Hnd].
    apply elem_of_cons in Hin as [Hin|Hin].
    + injection Hin as <- <-. by rewrite String.eqb_refl.
    + destruct (String.eqb_spec k key) as [->|Hne]; [|by apply IH].
      exfalso. apply Hk. apply list_elem_of_fmap. by exists (key, ty).
Qed.

Lemma map_addField_kept options acc entry :
  MapForm.addField options acc entry
  = if mapKept options entry then <[entry.1 := mapDescriptor entry.2]> acc else acc.
Proof.
  destruct entry as [k t]. unfold MapForm.addField, mapKept, mapDescriptor. simpl.
  destruct (MapForm.isDisabled options k); [done|].
  rewrite map_getInnerSchemaType_closed.
  by destruct (isStructured (namedKind t)).
Qed.

(** What the map form holds under a key, over any starting accumulator. *)
Lemma map_fold_addField_lookup options (fieldMap : FieldMap)
    (acc : gmap string MapForm.ModelFieldSchema) key :
  NoDup fieldMap.*1 ->
  fold_left (MapForm.addField options) fieldMap acc !! key
  = match fieldAt fieldMap key with
    | Some ty =>
        if mapKept options (key, ty) then Some (mapDescriptor ty) else acc !! key
    | None => acc !! key
    end.
Proof.
  revert acc. induction fieldMap as [|[k t] rest IH]; intros acc Hnd; [done|].
  simpl in Hnd. apply NoDup_cons in Hnd as [Hk Hnd].
  cbn [fold_left fieldAt]. rewrite IH by done. rewrite map_addField_kept.
  cbn [fst snd].
  destruct (String.eqb_spec k key) as [->|Hne].
  - rewrite fieldAt_notin by done.
    destruct (mapKept options (key, t)); [|done]. by rewrite lookup_insert_eq.
  - assert (Hacc : (if mapKept options (k, t)
                     then <[k := mapDescriptor t]> acc else acc) !! key = acc !! key).
    { destruct (mapKept options (k, t)); [|done]. by rewrite lookup_insert_ne. }
    by rewrite Hacc.
Qed.

(** A key the options exclude, or all of whose fields are structured,
    never enters the map. *)
Lemma map_fold_addField_excluded options (fieldMap : FieldMap)
    (acc : gmap string MapForm.ModelFieldSchema) key :
  acc !! key = None ->
  MapForm.isDisabled options key = true ->
  fold_left (MapForm.addField options) fieldMap acc !! key = None.
Proof.
  revert acc. induction fieldMap as [|[k t] rest IH]; intros acc Hacc Hdis; [done|].
  cbn [fold_left]. apply IH; [|done]. rewrite map_addField_kept.
  unfold mapKept. cbn [fst snd].
  destruct (decide (k = key)) as [->|Hne].
  - by rewrite Hdis.
  - destruct (_ && _); [|done]. by rewrite lookup_insert_ne.
Qed.

End FlattenMore.

(** ** Substrings *)

Section Includes.

Lemma prefix_app (t post : string) : String.prefix t (t ++ post) = true.
Proof.
  induction t as [|a t IH]; simpl; [by destruct post|].
  by destruct (ascii_dec a a).
Qed.

Lemma prefix_inv (t s : string) :
  String.prefix t s = true -> exists post, s = t ++ post.
Proof.
  revert s. induction t as [|a t IH]; intros s H.
  - by exists s.
  - destruct s as [|b s]; [done|]. simpl in H.
    destruct (ascii_dec a b) as [->|]; [|done].
    destruct (IH _ H) as [post ->]. by exists post.
Qed.

Lemma includes_unfold (s t : string) :
  includes s t
  = String.prefix t s
    || match s with
       | EmptyString => false
       | String _ rest => includes rest t
       end.
Proof. by destruct s. Qed.

(** [s.includes(t)] holds exactly when [t] occurs in [s]. *)
Lemma includes_substring (s t : string) :
  includes s t = true <-> exists pre post, s = pre ++ t ++ post.
Proof.
  split.
  - induction s as [|a s IH]; rewrite includes_unfold, orb_true_iff.
    + intros [H|H]; [|done].
      apply prefix_inv in H as [post ->]. by exists EmptyString, post.
    + intros [H|H].
      * apply prefix_inv in H as [post ->]. by exists EmptyString, post.
      * destruct (IH H) as (pre & post & ->). by exists (String a pre), post.
  - intros (pre & post & ->). induction pre as [|a pre IH].
    + change (EmptyString ++ (t ++ post)) with (t ++ post).
      by rewrite includes_unfold, prefix_app.
    + change (String a pre ++ (t ++ post)) with (String a (pre ++ (t ++ post))).
      rewrite includes_unfold, IH. apply orb_true_r.
Qed.

Lemma list_isDisabled_substring terms primaryKeyNames term pre post :
  term ∈ terms ->
  ListForm.isDisabled
    {| ListForm.disableFields := Some terms;
       ListForm.primaryKeyNames := primaryKeyNames |}
    (pre ++ term ++ post) = true.
Proof.
  intros Hin. unfold ListForm.isDisabled. simpl.
  apply existsb_exists. exists term. split.
  - by apply list_elem_of_In.
  - apply includes_substring. by exists pre, post.
Qed.

End Includes.

(** ** Further properties of [buildModelSchema] *)

(** X2: the list form returns one descriptor per kept field, in the
    declaration order of the fields; a field is kept when no disabled term
    occurs in its name and its innermost type is neither an object nor an
    input-object type (interface and union types are kept); the descriptor
    has the field name, the innermost type name (never null), array set
    when a list wrapper occurs and nullable cleared when a non-null wrapper
    occurs. *)
Theorem list_buildModelSchema_in_declaration_order :
  forall (modelType : GraphQLNamedType)
         (options : ListForm.BuildModelSchemaOptions),
    ListForm.buildModelSchema modelType options
    = listDescriptor
        <$> filter (fun e => listKept options e)
              (getFields modelType : list (string * GraphQLType)).
Proof. intros. apply list_buildModelSchema_filter. Qed.

(** X3: a field that the options do not exclude and whose innermost type is
    not an object or input-object type is present in the flattened result
    of both forms, with the descriptor read off its type. *)
Theorem buildModelSchema_keeps_leaf_fields :
  forall (modelType : GraphQLNamedType) (key : string) (fieldType : GraphQLType)
         (listOptions : ListForm.BuildModelSchemaOptions)
         (mapOptions : MapForm.BuildModelSchemaOptions),
    NoDup (getFields modelType).*1 ->
    (key, fieldType) ∈ getFields modelType ->
    isStructured (namedKind fieldType) = false ->
    ListForm.isDisabled listOptions key = false ->
    MapForm.isDisabled mapOptions key = false ->
    listDescriptor (key, fieldType)
      ∈ ListForm.buildModelSchema modelType listOptions
    /\ MapForm.buildModelSchema modelType mapOptions !! key
       = Some (mapDescriptor fieldType).
Proof.
  intros modelType key ty lo mo Hnd Hin Hleaf Hl Hm. split.
  - rewrite list_buildModelSchema_filter.
    apply list_elem_of_fmap. exists (key, ty). split; [done|].
    apply list_elem_of_filter. split; [|done].
    unfold listKept. simpl. by rewrite Hl, Hleaf.
  - unfold MapForm.buildModelSchema.
    rewrite map_fold_addField_lookup by done.
    rewrite (fieldAt_in _ _ _ Hnd Hin).
    unfold mapKept. simpl. by rewrite Hm, Hleaf.
Qed.

Lemma buildModelSchema_keeps_leaf_fields_witness :
  listDescriptor ("owner", Named Interface "Node")
    ∈ ListForm.buildModelSchema Catalog.article Catalog.withoutAudit
  /\ MapForm.buildModelSchema Catalog.article Catalog.withoutAggregates !! "owner"
     = Some (mapDescriptor (Named Interface "Node")).
Proof.
  apply (buildModelSchema_keeps_leaf_fields Catalog.article "owner"
           (Named Interface "Node")).
  - apply (bool_decide_unpack _). vm_compute. exact I.
  - apply (bool_decide_unpack _). vm_compute. exact I.
  - reflexivity.
  - reflexivity.
  - reflexivity.
Defined.

(** X4: when the field names of the type are distinct, the map form holds
    under a key the descriptor of the field of that name if the field is
    kept, and nothing otherwise (no such field, an excluded name, or an
    object or input-object type). *)
Theorem map_buildModelSchema_lookup :
  forall (modelType : GraphQLNamedType)
         (options : MapForm.BuildModelSchemaOptions) (key : string),
    NoDup (getFields modelType).*1 ->
    MapForm.buildModelSchema modelType options !! key
    = match fieldAt (getFields modelType) key with
      | Some fieldType =>
          if mapKept options (key, fieldType)
          then Some (mapDescriptor fieldType) else None
      | None => None
      end.
Proof.
  intros modelType options key Hnd. unfold MapForm.buildModelSchema.
  rewrite map_fold_addField_lookup by done. rewrite lookup_empty.
  by destruct (fieldAt (getFields modelType) key).
Qed.

Lemma map_buildModelSchema_lookup_witness :
  MapForm.buildModelSchema Catalog.article Catalog.withoutAggregates !! "tags"
  = match fieldAt (getFields Catalog.article) "tags" with
    | Some fieldType =>
        if mapKept Catalog.withoutAggregates ("tags", fieldType)
        then Some (mapDescriptor fieldType) else None
    | None => None
    end.
Proof.
  apply (map_buildModelSchema_lookup Catalog.article Catalog.withoutAggregates "tags").
  apply (bool_decide_unpack _). vm_compute. exact I.
Defined.

(** X5: in the list form a field whose name contains a term of
    [disableFields] as a substring has no descriptor in the result. *)
Theorem list_buildModelSchema_excludes_substrings :
  forall (modelType : GraphQLNamedType) (terms primaryKeyNames : list string)
         (term pre post : string),
    term ∈ terms ->
    (pre ++ term ++ post)
      ∉ ListForm.name
          <$> ListForm.buildModelSchema modelType
                {| ListForm.disableFields := Some terms;
                   ListForm.primaryKeyNames := primaryKeyNames |}.
Proof.
  intros modelType terms pk term pre post Hin Hname.
  apply list_elem_of_fmap in Hname as (d & Hname & Hd).
  rewrite list_buildModelSchema_filter in Hd.
  apply list_elem_of_fmap in Hd as ([k ty] & -> & Hk).
  apply list_elem_of_filter in Hk as [Hkept _].
  unfold listKept in Hkept. simpl in *. subst k.
  by rewrite (list_isDisabled_substring _ _ _ _ _ Hin) in Hkept.
Qed.

Lemma list_buildModelSchema_excludes_substrings_witness :
  ("" ++ "created_by" ++ "")
    ∉ ListForm.name
        <$> ListForm.buildModelSchema Catalog.article
              {| ListForm.disableFields := Some ["created_by"; "updated_by"];
                 ListForm.primaryKeyNames := ["id"] |}.
Proof.
  apply (list_buildModelSchema_excludes_substrings Catalog.article
           ["created_by"; "updated_by"] ["id"] "created_by" "" "").
  apply (bool_decide_unpack _). vm_compute. exact I.
Defined.

(** X6: an empty string among the [disableFields] of the list form
    excludes every field: the flattened result is empty. *)
Theorem list_buildModelSchema_empty_term :
  forall (modelType : GraphQLNamedType) (terms primaryKeyNames : list string),
    "" ∈ terms ->
    ListForm.buildModelSchema modelType
      {| ListForm.disableFields := Some terms;
         ListForm.primaryKeyNames := primaryKeyNames |} = [].
Proof.
  intros modelType terms pk Hin. rewrite list_buildModelSchema_filter.
  induction (getFields modelType : list (string * GraphQLType)) as [|[k ty] rest IH];
    [done|].
  pose proof (list_isDisabled_substring terms pk "" "" k Hin) as Hdis.
  change ("" ++ "" ++ k) with k in Hdis.
  rewrite filter_cons, decide_False; [exact IH|].
  unfold listKept. cbn [fst snd]. rewrite Hdis. simpl. tauto.
Qed.

Lemma list_buildModelSchema_empty_term_witness :
  ListForm.buildModelSchema Catalog.article
    {| ListForm.disableFields := Some ["created_by"; ""];
       ListForm.primaryKeyNames := ["id"] |} = [].
Proof.
  apply (list_buildModelSchema_empty_term Catalog.article ["created_by"; ""] ["id"]).
  apply (bool_decide_unpack _). vm_compute. exact I.
Defined.

(** X7: the map form excludes by exact name and by the aggregate marker: a
    key listed in [disableFields] has no entry, and with
    [disableAggregateFields] set no key that contains [_aggregate] has
    one. *)
Theorem map_buildModelSchema_exclusions :
  forall (modelType : GraphQLNamedType) (aggregate : option bool)
         (names : list string) (key : string),
    key ∈ names ->
    MapForm.buildModelSchema modelType
      {| MapForm.disableAggregateFields := aggregate;
         MapForm.disableFields := Some names |} !! key = None
    /\ (forall (disableFields : option (list string)) (pre post : string),
         MapForm.buildModelSchema modelType
           {| MapForm.disableAggregateFields := Some true;
              MapForm.disableFields := disableFields |}
           !! (pre ++ "_aggregate" ++ post) = None).
Proof.
  intros modelType aggregate names key Hin. split.
  - apply map_fold_addField_excluded; [done|].
    unfold MapForm.isDisabled. simpl.
    rewrite (bool_decide_eq_true_2 _ Hin). apply orb_true_r.
  - intros df pre post. apply map_fold_addField_excluded; [done|].
    unfold MapForm.isDisabled. simpl.
    assert (H : includes (pre ++ "_aggregate" ++ post) "_aggregate" = true).
    { apply includes_substring. by exists pre, post. }
    by rewrite H.
Qed.

Lemma map_buildModelSchema_exclusions_witness :
  MapForm.buildModelSchema Catalog.article
    {| MapForm.disableAggregateFields := None;
       MapForm.disableFields := Some ["created_by"] |} !! "created_by" = None
  /\ (forall (disableFields : option (list string)) (pre post : string),
       MapForm.buildModelSchema Catalog.article
         {| MapForm.disableAggregateFields := Some true;
            MapForm.disableFields := disableFields |}
         !! (pre ++ "_aggregate" ++ post) = None).
Proof.
  apply (map_buildModelSchema_exclusions Catalog.article None
           ["created_by"] "created_by").
  apply (bool_decide_unpack _). vm_compute. exact I.
Defined.

(** ** More on the reduction over the model names *)

Section ReduceMore.
Context {R : Type} (step : string -> result R).

Lemma fold_addResult_Ok_inv names acc out :
  fold_left (addResult step) names (Ok acc) = Ok out ->
  Forall (fun x => exists r, step x = Ok r) names.
Proof.
  revert acc. induction names as [|m rest IH]; intros acc Hfold; [constructor|].
  simpl in Hfold. destruct (step m) as [rm|e] eqn:Hm; simpl in Hfold.
  - constructor; [by exists rm | by eapply IH].
  - by rewrite fold_addResult_Throw in Hfold.
Qed.

Lemma fold_addResult_Ok names acc :
  Forall (fun x => exists r, step x = Ok r) names ->
  exists out, fold_left (addResult step) names (Ok acc) = Ok out.
Proof.
  intros Hall. revert acc.
  induction Hall as [|m rest [r Hm] _ IH]; intros acc; simpl.
  - by exists acc.
  - rewrite Hm. simpl. apply IH.
Qed.

Lemma fold_addResult_dom names (acc out : gmap string R) :
  fold_left (addResult step) names (Ok acc) = Ok out ->
  dom out = dom acc ∪ list_to_set names.
Proof.
  revert acc. induction names as [|m rest IH]; intros acc Hfold.
  - injection Hfold as <-. by rewrite list_to_set_nil, (right_id_L ∅ (∪)).
  - simpl in Hfold. destruct (step m) as [rm|e] eqn:Hm; simpl in Hfold.
    + rewrite (IH _ Hfold), dom_insert_L, list_to_set_cons.
      apply set_eq. intros x. rewrite !elem_of_union. tauto.
    + by rewrite fold_addResult_Throw in Hfold.
Qed.

Lemma fold_addResult_lookup_iff names (out : gmap string R) n r :
  fold_left (addResult step) names (Ok ∅) = Ok out ->
  out !! n = Some r <-> n ∈ names /\ step n = Ok r.
Proof.
  intros Hfold. split.
  - intros Hlook.
    destruct (fold_addResult_lookup step names ∅ out n r Hfold Hlook)
      as [H|[_ H]]; [done|by rewrite lookup_empty in H].
  - intros [Hin Hstep].
    assert (Hdom : n ∈ dom out).
    { rewrite (fold_addResult_dom _ _ _ Hfold).
      apply elem_of_union_r. by apply elem_of_list_to_set. }
    apply elem_of_dom in Hdom as [r' Hr'].
    destruct (fold_addResult_lookup step names ∅ out n r' Hfold Hr')
      as [[_ H]|[Hnin _]]; [|done]. congruence.
Qed.


End ReduceMore.

(** ** Further properties of [buildModelSchemas] and [plugin] *)

(** X8: without a list of model names ([models], [tables] absent from the
    configuration) [buildModelSchemas] and [plugin] of both forms end with
    a TypeError, on every schema. *)
Theorem buildModelSchemas_without_names :
  forall (conv : CaseConversion) (schema : GraphQLSchema)
         (listOptions : ListForm.BuildModelSchemaOptions)
         (mapOptions : MapForm.BuildModelSchemaOptions)
         (listStringify : gmap string ListForm.ModelSchemas -> string)
         (mapStringify : gmap string MapForm.ModelSchemas -> string)
         (maxDepth : option number)
         (disableFields primaryKeyNames : option (list string))
         (commentDescriptions disableAggregateFields : option bool),
    ListForm.buildModelSchemas conv None schema listOptions = Throw TypeError
    /\ MapForm.buildModelSchemas conv None schema mapOptions = Throw TypeError
    /\ ListForm.plugin conv listStringify schema
         {| ListForm.Config.models := None;
            ListForm.Config.maxDepth := maxDepth;
            ListForm.Config.disableFields := disableFields;
            ListForm.Config.primaryKeyNames := primaryKeyNames |}
       = Throw TypeError
    /\ MapForm.plugin conv mapStringify schema
         {| MapForm.Config.commentDescriptions := commentDescriptions;
            MapForm.Config.tables := None;
            MapForm.Config.maxDepth := maxDepth;
            MapForm.Config.disableAggregateFields := disableAggregateFields;
            MapForm.Config.disableFields := disableFields |}
       = Throw TypeError.
Proof.
  intros. unfold ListForm.plugin, MapForm.plugin,
    ListForm.buildModelSchemas, MapForm.buildModelSchemas. simpl.
  destruct (getMutationType schema); repeat split.
Qed.

(** X9: on a schema with a mutation type the list form returns for every
    list of model names, resolved or not: it never raises the
    model-resolution error, and the keys of its output are the names of
    the list. *)
Theorem list_buildModelSchemas_always_returns :
  forall (conv : CaseConversion) (schema : GraphQLSchema)
         (mutationType : GraphQLNamedType) (names : list string)
         (options : ListForm.BuildModelSchemaOptions),
    getMutationType schema = Some mutationType ->
    exists out,
      ListForm.buildModelSchemas conv (Some names) schema options = Ok out
      /\ dom out = list_to_set names.
Proof.
  intros conv schema mt names options Hmt.
  destruct (list_buildModelSchemas_returns conv names schema mt options Hmt)
    as [out Hout].
  exists out. split; [done|].
  unfold ListForm.buildModelSchemas in Hout. rewrite Hmt in Hout.
  by rewrite (fold_addResult_dom _ _ _ _ Hout), dom_empty_L, (left_id_L ∅ (∪)).
Qed.

Lemma list_buildModelSchemas_always_returns_witness :
  exists out,
    ListForm.buildModelSchemas Sample.lowercaseNames (Some ["user"; "ghost"])
      Sample.schema Sample.listOptions = Ok out
    /\ dom out = list_to_set ["user"; "ghost"].
Proof.
  exact (list_buildModelSchemas_always_returns Sample.lowercaseNames
           Sample.schema Sample.mutation_root ["user"; "ghost"]
           Sample.listOptions eq_refl).
Defined.

(** X10: whenever the map form returns, the keys of its output are the
    names of the list it was given, each once. *)
Theorem map_buildModelSchemas_keys :
  forall (conv : CaseConversion) (schema : GraphQLSchema)
         (names : list string) (options : MapForm.BuildModelSchemaOptions)
         (out : gmap string MapForm.ModelSchemas),
    MapForm.buildModelSchemas conv (Some names) schema options = Ok out ->
    dom out = list_to_set names.
Proof.
  intros conv schema names options out Hout.
  unfold MapForm.buildModelSchemas in Hout.
  destruct (getMutationType schema) as [mt|]; [|done].
  by rewrite (fold_addResult_dom _ _ _ _ Hout), dom_empty_L, (left_id_L ∅ (∪)).
Qed.

Lemma map_buildModelSchemas_keys_witness :
  dom ({[ "user_role" := Sample.userRoleMapRecord ]}
         : gmap string MapForm.ModelSchemas)
  = list_to_set ["user_role"].
Proof.
  exact (map_buildModelSchemas_keys Sample.lowercaseNames Sample.schema
           ["user_role"] Sample.mapOptions _ sample_map_user_role).
Defined.

(** X11: the output of [buildModelSchemas] holds under a name exactly the
    record the reducer makes for that name, and holds one for a name
    exactly when the name is in the list, in both forms. *)
Theorem buildModelSchemas_lookup :
  forall (conv : CaseConversion) (schema : GraphQLSchema)
         (mutationType : GraphQLNamedType) (names : list string)
         (listOptions : ListForm.BuildModelSchemaOptions)
         (mapOptions : MapForm.BuildModelSchemaOptions),
    getMutationType schema = Some mutationType ->
    (forall out n r,
       ListForm.buildModelSchemas conv (Some names) schema listOptions = Ok out ->
       out !! n = Some r
       <-> n ∈ names
           /\ ListForm.modelSchemasOf conv schema (getFields mutationType)
                listOptions n = Ok r)
    /\ (forall out n r,
       MapForm.buildModelSchemas conv (Some names) schema mapOptions = Ok out ->
       out !! n = Some r
       <-> n ∈ names
           /\ MapForm.modelSchemasOf conv schema (getFields mutationType)
                mapOptions n = Ok r).
Proof.
  intros conv schema mt names lo mo Hmt. split; intros out n r Hout.
  - unfold ListForm.buildModelSchemas in Hout. rewrite Hmt in Hout.
    exact (fold_addResult_lookup_iff _ _ _ n r Hout).
  - unfold MapForm.buildModelSchemas in Hout. rewrite Hmt in Hout.
    exact (fold_addResult_lookup_iff _ _ _ n r Hout).
Qed.

Lemma buildModelSchemas_lookup_witness :
  (forall out n r,
     ListForm.buildModelSchemas Sample.lowercaseNames (Some ["user"; "user_role"])
       Sample.schema Sample.listOptions = Ok out ->
     out !! n = Some r
     <-> n ∈ ["user"; "user_role"]
         /\ ListForm.modelSchemasOf Sample.lowercaseNames Sample.schema
              (getFields Sample.mutation_root) Sample.listOptions n = Ok r)
  /\ (forall out n r,
     MapForm.buildModelSchemas Sample.lowercaseNames (Some ["user"; "user_role"])
       Sample.schema Sample.mapOptions = Ok out ->
     out !! n = Some r
     <-> n ∈ ["user"; "user_role"]
         /\ MapForm.modelSchemasOf Sample.lowercaseNames Sample.schema
              (getFields Sample.mutation_root) Sample.mapOptions n = Ok r).
Proof.
  exact (buildModelSchemas_lookup Sample.lowercaseNames Sample.schema
           Sample.mutation_root ["user"; "user_role"]
           Sample.listOptions Sample.mapOptions eq_refl).
Defined.



Lemma map_modelSchemasOf_Ok_resolved conv schema mutationFields options n r :
  MapForm.modelSchemasOf conv schema mutationFields options n = Ok r ->
  ~ unresolved conv schema n.
Proof.
  intros Hok Hun.
  by rewrite (map_modelSchemasOf_unresolved conv _ _ _ _ Hun) in Hok.
Qed.

(** X13: on a schema with a mutation type the map form returns exactly when
    every model name of the list resolves in at least one of its three
    slots (model, insert input, set input). *)
Theorem map_buildModelSchemas_returns_iff :
  forall (conv : CaseConversion) (schema : GraphQLSchema)
         (mutationType : GraphQLNamedType) (names : list string)
         (options : MapForm.BuildModelSchemaOptions),
    getMutationType schema = Some mutationType ->
    (exists out,
       MapForm.buildModelSchemas conv (Some names) schema options = Ok out)
    <-> Forall (fun n => ~ unresolved conv schema n) names.
Proof.
  intros conv schema mt names options Hmt.
  unfold MapForm.buildModelSchemas. rewrite Hmt. split.
  - intros [out Hout]. apply fold_addResult_Ok_inv in Hout.
    eapply Forall_impl; [exact Hout|]. intros n [r Hr].
    by eapply map_modelSchemasOf_Ok_resolved.
  - intros Hall.
    apply (fold_addResult_Ok
             (MapForm.modelSchemasOf conv schema (getFields mt) options)).
    eapply Forall_impl; [exact Hall|]. intros n Hn.
    by apply map_modelSchemasOf_resolved.
Qed.

Lemma map_buildModelSchemas_returns_iff_witness :
  (exists out,
     MapForm.buildModelSchemas Sample.lowercaseNames (Some ["user"; "tag"])
       Sample.schema Sample.mapOptions = Ok out)
  <-> Forall (fun n => ~ unresolved Sample.lowercaseNames Sample.schema n)
        ["user"; "tag"].
Proof.
  exact (map_buildModelSchemas_returns_iff Sample.lowercaseNames Sample.schema
           Sample.mutation_root ["user"; "tag"] Sample.mapOptions eq_refl).
Defined.

(** X14: on a schema with a mutation type, when some model name of the
    list resolves in none of its three slots, the map form ends with the
    model-resolution error naming the first such name; the names after it
    are not looked at, so a later unresolved name is not reported. *)
Theorem map_buildModelSchemas_first_unresolved :
  forall (conv : CaseConversion) (before : list string) (m : string)
         (after : list string) (schema : GraphQLSchema)
         (mutationType : GraphQLNamedType)
         (options : MapForm.BuildModelSchemaOptions),
    getMutationType schema = Some mutationType ->
    Forall (fun x => ~ unresolved conv schema x) before ->
    unresolved conv schema m ->
    MapForm.buildModelSchemas conv (Some (before ++ m :: after)%list) schema options
    = Throw (modelError m).
Proof. intros. by eapply map_buildModelSchemas_unresolved. Qed.

Lemma map_buildModelSchemas_first_unresolved_witness :
  MapForm.buildModelSchemas Sample.lowercaseNames
    (Some (["user"] ++ "ghost" :: ["tag"; "phantom"])%list)
    Sample.schema Sample.mapOptions
  = Throw (modelError "ghost").
Proof.
  apply (map_buildModelSchemas_first_unresolved Sample.lowercaseNames ["user"]
           "ghost" ["tag"; "phantom"] Sample.schema Sample.mutation_root
           Sample.mapOptions eq_refl).
  - constructor; [|constructor]. intros (H & _ & _). vm_compute in H. discriminate H.
  - repeat split; vm_compute; reflexivity.
Defined.

(** X15: every record of a map-form output has at least one of its three
    collections present: the final guard lets no other record through. *)
Theorem map_records_have_a_collection :
  forall (conv : CaseConversion) (schema : GraphQLSchema)
         (tables : option (list string))
         (options : MapForm.BuildModelSchemaOptions)
         (out : gmap string MapForm.ModelSchemas)
         (n : string) (r : MapForm.ModelSchemas),
    MapForm.buildModelSchemas conv tables schema options = Ok out ->
    out !! n = Some r ->
    is_Some (MapForm.model r) \/ is_Some (MapForm.insertInput r)
    \/ is_Some (MapForm.setInput r).
Proof.
  intros conv schema tables options out n r Hout Hlook.
  unfold MapForm.buildModelSchemas in Hout.
  destruct (getMutationType schema) as [mt|]; [|done].
  destruct tables as [names|]; [|done].
  apply (fold_addResult_lookup_iff _ _ _ n r Hout) in Hlook as [_ Hr].
  rewrite map_modelSchemasOf_closed in Hr. cbv zeta in Hr.
  destruct (MapForm.model (mapRecord conv schema (getFields mt) options n))
    as [m|] eqn:Em;
  destruct (MapForm.insertInput (mapRecord conv schema (getFields mt) options n))
    as [i|] eqn:Ei;
  destruct (MapForm.setInput (mapRecord conv schema (getFields mt) options n))
    as [u|] eqn:Eu;
  simpl in Hr; try discriminate Hr; injection Hr as <-;
  rewrite ?Em, ?Ei, ?Eu; eauto.
Qed.

Lemma map_records_have_a_collection_witness :
  is_Some (MapForm.model Sample.tagRecord)
  \/ is_Some (MapForm.insertInput Sample.tagRecord)
  \/ is_Some (MapForm.setInput Sample.tagRecord).
Proof.
  exact (map_records_have_a_collection Sample.lowercaseNames Sample.schema
           (Some ["tag"]) Sample.mapOptions _ "tag" Sample.tagRecord
           sample_map_tag eq_refl).
Defined.

(** X16: when the pk-columns input type does not resolve, the primaryKeys
    of a list-form record are picked from its flattened model fields, in
    their order, and each carries a name of primaryKeyNames; a field the
    flattener dropped or excluded is never a primary key. *)
Theorem primaryKeys_fallback :
  forall (conv : CaseConversion) (schema : GraphQLSchema)
         (models : option (list string))
         (options : ListForm.BuildModelSchemaOptions)
         (out : gmap string ListForm.ModelSchemas)
         (n : string) (r : ListForm.ModelSchemas),
    ListForm.buildModelSchemas conv models schema options = Ok out ->
    out !! n = Some r ->
    resolveType InputObject schema
      (fieldPkColumnsName conv n) (fieldPkColumnsNameCamelCase conv n) = None ->
    ListForm.primaryKeys r `sublist_of` ListForm.model r
    /\ Forall (fun d => ListForm.name d ∈ ListForm.primaryKeyNames options)
         (ListForm.primaryKeys r).
Proof.
  intros conv schema models options out n r Hout Hlook Hpk.
  destruct (list_buildModelSchemas_lookup conv _ _ _ _ _ _ Hout Hlook)
    as (mt & names & _ & _ & _ & ->).
  unfold listRecord. simpl. rewrite Hpk. simpl. split.
  - apply sublist_filter.
  - apply Forall_forall. intros d Hd.
    by apply list_elem_of_filter in Hd as [Hd _].
Qed.

Lemma primaryKeys_fallback_witness :
  ListForm.primaryKeys Sample.userRecord `sublist_of` ListForm.model Sample.userRecord
  /\ Forall (fun d => ListForm.name d ∈ ListForm.primaryKeyNames Sample.listOptions)
       (ListForm.primaryKeys Sample.userRecord).
Proof.
  exact (primaryKeys_fallback Sample.lowercaseNames Sample.schema
           (Some ["user"]) Sample.listOptions _ "user" Sample.userRecord
           sample_list_user eq_refl eq_refl).
Defined.

(** [maxDepth] (and, in the map form, [commentDescriptions]) has no effect
    on what [plugin] returns. *)
Remark plugin_ignores_maxDepth :
  forall (conv : CaseConversion) (schema : GraphQLSchema)
         (listStringify : gmap string ListForm.ModelSchemas -> string)
         (mapStringify : gmap string MapForm.ModelSchemas -> string)
         (names disableFields primaryKeyNames : option (list string))
         (disableAggregateFields comment1 comment2 : option bool)
         (depth1 depth2 : option number),
    ListForm.plugin conv listStringify schema
      {| ListForm.Config.models := names;
         ListForm.Config.maxDepth := depth1;
         ListForm.Config.disableFields := disableFields;
         ListForm.Config.primaryKeyNames := primaryKeyNames |}
    = ListForm.plugin conv listStringify schema
        {| ListForm.Config.models := names;
           ListForm.Config.maxDepth := depth2;
           ListForm.Config.disableFields := disableFields;
           ListForm.Config.primaryKeyNames := primaryKeyNames |}
    /\ MapForm.plugin conv mapStringify schema
         {| MapForm.Config.commentDescriptions := comment1;
            MapForm.Config.tables := names;
            MapForm.Config.maxDepth := depth1;
            MapForm.Config.disableAggregateFields := disableAggregateFields;
            MapForm.Config.disableFields := disableFields |}
       = MapForm.plugin conv mapStringify schema
           {| MapForm.Config.commentDescriptions := comment2;
              MapForm.Config.tables := names;
              MapForm.Config.maxDepth := depth2;
              MapForm.Config.disableAggregateFields := disableAggregateFields;
              MapForm.Config.disableFields := disableFields |}.
Proof. intros. split; reflexivity. Qed.

(** X17: [validate] ends with the configuration error exactly when
    [maxDepth] is present and below zero (minus infinity included); an
    absent [maxDepth], zero, a positive number, NaN and plus infinity pass.
    Both forms. *)
Theorem validate_throws_iff_negative :
  forall (listConfig : ListForm.Config.HasuraGraphQLConfig)
         (mapConfig : MapForm.Config.HasuraGraphQLConfig),
    (ListForm.validate listConfig = Throw maxDepthError
     <-> exists n, ListForm.Config.maxDepth listConfig = Some n /\ ltZero n = true)
    /\ (ListForm.validate listConfig = Ok tt
        <-> ~ exists n, ListForm.Config.maxDepth listConfig = Some n
                        /\ ltZero n = true)
    /\ (MapForm.validate mapConfig = Throw maxDepthError
        <-> exists n, MapForm.Config.maxDepth mapConfig = Some n /\ ltZero n = true)
    /\ (MapForm.validate mapConfig = Ok tt
        <-> ~ exists n, MapForm.Config.maxDepth mapConfig = Some n
                        /\ ltZero n = true).
Proof.
  intros lc mc.
  pose proof (list_validate_Throw lc) as HL.
  pose proof (map_validate_Throw mc) as HM.
  repeat split; try apply HL; try apply HM.
  - intros Hok Hex. apply HL in Hex. congruence.
  - intros Hno. unfold ListForm.validate in *.
    destruct (match ListForm.Config.maxDepth lc with
              | Some n => numberToBoolean n && leZero n | None => false end);
      [|done]. exfalso. apply Hno. by apply HL.
  - intros Hok Hex. apply HM in Hex. congruence.
  - intros Hno. unfold MapForm.validate in *.
    destruct (match MapForm.Config.maxDepth mc with
              | Some n => numberToBoolean n && leZero n | None => false end);
      [|done]. exfalso. apply Hno. by apply HM.
Qed.
